(** * Expense tracker (main.py): the persistence and query layer

    A shallow embedding of the three tools [add_expense], [list_expenses]
    and [summarize] and of [init_db], over a small model of the SQLite
    store they talk to: one table [expenses], a rowid counter for
    AUTOINCREMENT, connections with a working copy that is published by
    [commit] and dropped by [close]. *)

From Stdlib Require Import List ZArith Bool String Ascii Lia.
From Stdlib Require Import Sorting.Sorted Sorting.Permutation.
From Stdlib Require Import QArith.
Import ListNotations.
Open Scope string_scope.
Open Scope list_scope.
Open Scope Z_scope.

(** ** Amounts

    The column [amount] is REAL and the tools take a Python [float].  The
    model is generic in the carrier: all it uses is the accumulation step of
    SUM, which visits the rows of a group in scan order, the comparison
    of ORDER BY, and the test for NaN: the store keeps a NaN as NULL, which
    a NOT NULL column refuses.  Rounding stays inside the carrier. *)

Class Amount (R : Type) := {
  amount_zero : R;
  amount_add : R -> R -> R;
  amount_leb : R -> R -> bool;
  amount_is_nan : R -> bool
}.

(** Rational amounts and a NaN, to run the refusal of the store. *)
Inductive QNaN :=
| Num (q : Q)
| NaN.

#[export] Instance QNaN_Amount : Amount QNaN := {
  amount_zero := Num 0;
  amount_add := fun x y =>
    match x, y with
    | Num a, Num b => Num (a + b)
    | _, _ => NaN
    end;
  amount_leb := fun x y =>
    match x, y with
    | Num a, Num b => Qle_bool a b
    | NaN, _ => true
    | Num _, NaN => false
    end;
  amount_is_nan := fun x =>
    match x with
    | NaN => true
    | Num _ => false
    end
}.

(** Rational amounts, used for the concrete runs.  None of them is NaN. *)
#[export] Instance Q_Amount : Amount Q := {
  amount_zero := 0%Q;
  amount_add := Qplus;
  amount_leb := Qle_bool;
  amount_is_nan := fun _ => false
}.

(** ** Stable insertion sort, the model of ORDER BY

    [ord x y] reads "x may stand before y".  A row is inserted before the
    first row it may stand before, so rows that compare equal keep the order
    of the scan. *)

Section Sort.
Context {A : Type}.
Variable ord : A -> A -> bool.

Fixpoint insert_sorted (x : A) (l : list A) : list A :=
  match l with
  | [] => [x]
  | y :: l' => if ord x y then x :: y :: l' else y :: insert_sorted x l'
  end.

Fixpoint sort_by (l : list A) : list A :=
  match l with
  | [] => []
  | x :: l' => insert_sorted x (sort_by l')
  end.

Definition before (x y : A) : Prop := ord x y = true.
End Sort.

(** ** Data model *)

Section Store.
Context {R : Type} `{Amount R}.

(** One row of [expenses]. *)
Record Expense := mkExpense {
  row_id : Z;
  row_date : string;
  row_amount : R;
  row_category : string;
  row_subcategory : option string;
  row_note : option string
}.

(** The table and its entry in sqlite_sequence (the largest rowid ever
    handed out by AUTOINCREMENT). *)
Record Table := mkTable {
  rows : list Expense;
  seq : Z
}.

(** The database file: the table is there or not yet. *)
Definition Database := option Table.

(** Values that cross the driver, and the Python dict of a result row. *)
Inductive Value :=
| VNull
| VInt (z : Z)
| VReal (r : R)
| VText (s : string).

Definition Mapping := list (string * Value).

Definition text_or_null (o : option string) : Value :=
  match o with
  | Some s => VText s
  | None => VNull
  end.

(** [d[k] = v] on a dict that keeps insertion order. *)
Fixpoint dict_set (k : string) (v : Value) (d : Mapping) : Mapping :=
  match d with
  | [] => [(k, v)]
  | (k', v') :: d' =>
      if String.eqb k k' then (k', v) :: d' else (k', v') :: dict_set k v d'
  end.

(** [dict(pairs)]. *)
Definition dict (pairs : list (string * Value)) : Mapping :=
  fold_left (fun d kv => dict_set (fst kv) (snd kv) d) pairs [].

(** [d.get(k)]. *)
Fixpoint dict_get (k : string) (d : Mapping) : option Value :=
  match d with
  | [] => None
  | (k', v) :: d' => if String.eqb k k' then Some v else dict_get k d'
  end.

(** ** Errors and connections *)

Inductive StorageError :=
| ConnectError
| ExecuteError
| CommitError
| NoSuchTable
| DatabaseFull
| IntegrityError
| BindError.

Inductive result (A : Type) :=
| Ok (a : A)
| Err (e : StorageError).
Arguments Ok {A} a.
Arguments Err {A} e.

(** What the storage layer does to one call: each of the three driver
    steps can fail (disk full, lock timeout, corrupt file). *)
Record Faults := mkFaults {
  connect_fails : bool;
  execute_fails : bool;
  commit_fails : bool
}.

Definition no_faults : Faults := mkFaults false false false.

(** An open connection: the committed file and the working copy of the
    transaction in progress. *)
Record Conn := mkConn {
  committed : Database;
  working : Database
}.

(** Code that runs on a connection: it yields a value or raises, and
    leaves the connection in some state either way. *)
Definition DB (A : Type) := Conn -> result A * Conn.

Definition ret {A} (a : A) : DB A := fun c => (Ok a, c).

Definition bind {A B} (m : DB A) (k : A -> DB B) : DB B :=
  fun c =>
    match m c with
    | (Ok a, c') => k a c'
    | (Err e, c') => (Err e, c')
    end.

(** [with connect(DB_PATH) as db: body].  Leaving the block closes the
    connection on every path; what was not committed is rolled back. *)
Definition with_connection {A} (f : Faults) (body : DB A)
    (db : Database) : result A * Database :=
  if connect_fails f then (Err ConnectError, db)
  else
    let '(r, c) := body (mkConn db db) in
    (r, committed c).

(** [db.commit()]. *)
Definition commit (f : Faults) : DB unit :=
  fun c =>
    if commit_fails f then (Err CommitError, c)
    else (Ok tt, mkConn (working c) (working c)).
End Store.

Arguments Expense R : clear implicits.
Arguments Table R : clear implicits.
Arguments Database R : clear implicits.
Arguments Value R : clear implicits.
Arguments Mapping R : clear implicits.
Arguments Conn R : clear implicits.
Arguments DB R A : clear implicits.
Arguments Ok {A} a.
Arguments Err {A} e.

(** ** The statements the program sends and what the store does with them *)

Section Driver.
Context {R : Type} `{Amount R}.

Notation "x <- m ;; k" := (bind m (fun x => k))
  (at level 61, m at next level, right associativity).

(** A predicate of a WHERE clause with its placeholders:
    [date BETWEEN ? AND ?] takes two parameters, [category = ?] one. *)
Inductive Cond :=
| DateBetween
| CategoryEq.

(** The four statement shapes of main.py.  The SELECTs carry their WHERE
    clause as the conjunction the query text spells out. *)
Inductive Statement :=
| CreateExpenses
| InsertExpense
| SelectExpenses (where_ : list Cond)
| SelectSummary (where_ : list Cond).

Record Cursor := mkCursor {
  description : list string;
  fetchall : list (list (Value R));
  lastrowid : option Z
}.

(** [x BETWEEN lo AND hi] on TEXT: bytewise comparison, both ends
    included. *)
Definition between (lo hi x : string) : bool :=
  String.leb lo x && String.leb x hi.

(** Binds the parameters to the placeholders, left to right. *)
Fixpoint eval_where (w : list Cond) (ps : list (Value R))
    : option (Expense R -> bool) :=
  match w, ps with
  | [], [] => Some (fun _ => true)
  | DateBetween :: w', VText lo :: VText hi :: ps' =>
      match eval_where w' ps' with
      | Some p => Some (fun e => between lo hi (row_date e) && p e)
      | None => None
      end
  | CategoryEq :: w', VText c :: ps' =>
      match eval_where w' ps' with
      | Some p => Some (fun e => String.eqb (row_category e) c && p e)
      | None => None
      end
  | _, _ => None
  end.

(** The VALUES tuple of the INSERT.  Binding takes any number as amount;
    whether the row may be stored is for [violates_not_null] to say. *)
Definition bind_insert (ps : list (Value R))
    : option (Z -> Expense R) :=
  match ps with
  | [VText d; VReal a; VText c; sub; note] =>
      match sub, note with
      | (VNull | VText _), (VNull | VText _) =>
          Some (fun n =>
            mkExpense n d a c
              (match sub with VText s => Some s | _ => None end)
              (match note with VText s => Some s | _ => None end))
      | _, _ => None
      end
  | _ => None
  end.

(** date TEXT NOT NULL, amount REAL NOT NULL, category TEXT NOT NULL: date
    and category are texts; the amount is stored as NULL, and so refused,
    when it is NaN. *)
Definition violates_not_null (e : Expense R) : bool :=
  amount_is_nan (row_amount e).

(** Largest 64-bit rowid. *)
Definition MAX_ROWID : Z := 9223372036854775807.

Definition max_rowid (rs : list (Expense R)) : Z :=
  fold_right Z.max 0 (map row_id rs).

(** The largest rowid that has ever been in the table. *)
Definition high_water (t : Table R) : Z :=
  Z.max (seq t) (max_rowid (rows t)).

(** SELECT id, date, amount, category, subcategory, note *)
Definition expense_columns : list string :=
  ["id"; "date"; "amount"; "category"; "subcategory"; "note"].

Definition expense_tuple (e : Expense R) : list (Value R) :=
  [VInt (row_id e); VText (row_date e); VReal (row_amount e);
   VText (row_category e); text_or_null (row_subcategory e);
   text_or_null (row_note e)].

(** ORDER BY date DESC *)
Definition date_desc (x y : Expense R) : bool :=
  String.leb (row_date y) (row_date x).

(** SELECT category, SUM(amount) AS total_amount, COUNT( * ) AS count *)
Definition summary_columns : list string :=
  ["category"; "total_amount"; "count"].

Record Group := mkGroup {
  g_category : string;
  g_total : R;
  g_count : Z
}.

Definition sql_sum (l : list R) : R := fold_left amount_add l amount_zero.

Definition group_of (c : string) (rs : list (Expense R)) : list (Expense R) :=
  filter (fun e => String.eqb (row_category e) c) rs.

Definition aggregate (rs : list (Expense R)) (c : string) : Group :=
  mkGroup c (sql_sum (map row_amount (group_of c rs)))
    (Z.of_nat (List.length (group_of c rs))).

(** GROUP BY category: the store sorts on the key and emits one group per
    distinct key.  With a one-term ORDER BY ... DESC behind it, the grouping
    runs in descending key order. *)
Definition category_desc (x y : string) : bool := String.leb y x.

Definition group_keys (rs : list (Expense R)) : list string :=
  sort_by category_desc (nodup string_dec (map row_category rs)).

Definition group_by_category (rs : list (Expense R)) : list Group :=
  map (aggregate rs) (group_keys rs).

(** ORDER BY total_amount DESC *)
Definition total_desc (x y : Group) : bool :=
  amount_leb (g_total y) (g_total x).

Definition group_tuple (g : Group) : list (Value R) :=
  [VText (g_category g); VReal (g_total g); VInt (g_count g)].

(** [db.execute(statement, params)].  CREATE TABLE runs outside a
    transaction and is durable at once; INSERT opens a transaction and
    changes the working copy only. *)
Definition execute (f : Faults) (st : Statement) (ps : list (Value R))
    : DB R Cursor :=
  fun c =>
    if execute_fails f then (Err ExecuteError, c)
    else
      match st with
      | CreateExpenses =>
          match working c with
          | Some _ => (Ok (mkCursor [] [] None), c)
          | None =>
              let t := Some (mkTable [] 0) in
              (Ok (mkCursor [] [] None), mkConn t t)
          end
      | InsertExpense =>
          match working c, bind_insert ps with
          | None, _ => (Err NoSuchTable, c)
          | Some _, None => (Err BindError, c)
          | Some t, Some row =>
              if MAX_ROWID <=? high_water t then (Err DatabaseFull, c)
              else
                let n := high_water t + 1 in
                if violates_not_null (row n) then (Err IntegrityError, c)
                else
                (Ok (mkCursor [] [] (Some n)),
                 mkConn (committed c)
                   (Some (mkTable (rows t ++ [row n]) n)))
          end
      | SelectExpenses w =>
          match working c, eval_where w ps with
          | None, _ => (Err NoSuchTable, c)
          | Some _, None => (Err BindError, c)
          | Some t, Some p =>
              (Ok (mkCursor expense_columns
                     (map expense_tuple
                        (sort_by date_desc (filter p (rows t))))
                     None), c)
          end
      | SelectSummary w =>
          match working c, eval_where w ps with
          | None, _ => (Err NoSuchTable, c)
          | Some _, None => (Err BindError, c)
          | Some t, Some p =>
              (Ok (mkCursor summary_columns
                     (map group_tuple
                        (sort_by total_desc
                           (group_by_category (filter p (rows t)))))
                     None), c)
          end
      end.

(** ** main.py *)

(** [init_db] *)
Definition init_db (f : Faults) (db : Database R)
    : result unit * Database R :=
  with_connection f
    (_ <- execute f CreateExpenses [] ;;
     commit f)
    db.

(** [add_expense] *)
Definition add_expense (f : Faults) (db : Database R)
    (date : string) (amount : R) (category : string)
    (subcategory note : option string)
    : result (Mapping R) * Database R :=
  with_connection f
    (cur <- execute f InsertExpense
              [VText date; VReal amount; VText category;
               text_or_null subcategory; text_or_null note] ;;
     _ <- commit f ;;
     ret (dict [("status", VText "success");
                ("id", match lastrowid cur with
                       | Some n => VInt n
                       | None => VNull
                       end)]))
    db.

(** [[dict(zip(cols, row)) for row in await cur.fetchall()]] *)
Definition row_dicts (cur : Cursor) : list (Mapping R) :=
  map (fun row => dict (combine (description cur) row)) (fetchall cur).

(** [list_expenses] *)
Definition list_expenses (f : Faults) (db : Database R)
    (start_date end_date : string)
    : result (list (Mapping R)) * Database R :=
  with_connection f
    (cur <- execute f (SelectExpenses [DateBetween])
              [VText start_date; VText end_date] ;;
     ret (row_dicts cur))
    db.

(** Truth value of an [Optional[str]]: [None] and the empty string are
    false. *)
Definition truthy (o : option string) : bool :=
  match o with
  | Some s => negb (String.eqb s "")
  | None => false
  end.

(** [summarize]: the query text and the parameter list grow together. *)
Definition summarize (f : Faults) (db : Database R)
    (start_date end_date : string) (category : option string)
    : result (list (Mapping R)) * Database R :=
  let query := [DateBetween] in
  let params := [VText start_date; VText end_date] in
  let '(query, params) :=
    match category with
    | Some c =>
        if truthy category then (query ++ [CategoryEq], params ++ [VText c])
        else (query, params)
    | None => (query, params)
    end in
  with_connection f
    (cur <- execute f (SelectSummary query) params ;;
     ret (row_dicts cur))
    db.

(** ** Reading the results *)

(** The dict [list_expenses] builds for a row. *)
Definition expense_dict (e : Expense R) : Mapping R :=
  dict (combine expense_columns (expense_tuple e)).

(** The dict [summarize] builds for a group. *)
Definition group_dict (g : Group) : Mapping R :=
  dict (combine summary_columns (group_tuple g)).

(** The row of a listing carries identifier [n]. *)
Definition has_id (n : Z) (m : Mapping R) : bool :=
  match dict_get "id" m with
  | Some (VInt k) => k =? n
  | _ => false
  end.

(** Two dicts of a listing, the first dated no earlier than the second. *)
Definition date_not_before (m1 m2 : Mapping R) : Prop :=
  match dict_get "date" m1, dict_get "date" m2 with
  | Some (VText d1), Some (VText d2) => String.leb d2 d1 = true
  | _, _ => False
  end.


(** The rows of a table dated within [[start_date, end_date]]. *)
Definition in_range (start_date end_date : string) (t : Table R)
    : list (Expense R) :=
  filter (fun e => between start_date end_date (row_date e)) (rows t).

(** The WHERE clause [summarize] ends up with. *)
Definition summary_where (start_date end_date : string)
    (category : option string) (e : Expense R) : bool :=
  between start_date end_date (row_date e) &&
  match category with
  | Some c => if truthy category then String.eqb (row_category e) c else true
  | None => true
  end.

(** The wording of the summary with a category: restrict the rows of the
    range to the category, then group and order. *)
Definition filter_then_group (start_date end_date c : string) (t : Table R)
    : list (Mapping R) :=
  map group_dict
    (sort_by total_desc
       (group_by_category
          (filter (fun e => String.eqb (row_category e) c)
             (in_range start_date end_date t)))).

(** The columns of CREATE TABLE expenses. *)
Record Column := mkColumn {
  col_name : string;
  col_type : string;
  col_not_null : bool;
  col_autoincrement_key : bool
}.

Definition expenses_schema : list Column :=
  [mkColumn "id" "INTEGER" false true;
   mkColumn "date" "TEXT" true false;
   mkColumn "amount" "REAL" true false;
   mkColumn "category" "TEXT" true false;
   mkColumn "subcategory" "TEXT" false false;
   mkColumn "note" "TEXT" false false].

(** The shape of the table in a database of the model, where a table that
    exists has the columns its rows are typed with. *)
Definition table_shape (db : Database R) : option (list Column) :=
  match db with
  | Some _ => Some expenses_schema
  | None => None
  end.

(** [n] calls of [init_db] in a row. *)
Fixpoint init_db_times (n : nat) (f : Faults) (db : Database R)
    : Database R :=
  match n with
  | O => db
  | S n' => init_db_times n' f (snd (init_db f db))
  end.

(** ** Histories of calls *)

Inductive Call :=
| CallInit
| CallAdd (date : string) (amount : R) (category : string)
    (subcategory note : option string)
| CallList (start_date end_date : string)
| CallSummarize (start_date end_date : string) (category : option string).

(** One call under the faults it meets: the database it leaves. *)
Definition step (db : Database R) (fc : Faults * Call) : Database R :=
  let f := fst fc in
  match snd fc with
  | CallInit => snd (init_db f db)
  | CallAdd d a c sub note => snd (add_expense f db d a c sub note)
  | CallList s e => snd (list_expenses f db s e)
  | CallSummarize s e c => snd (summarize f db s e c)
  end.

Definition run (db : Database R) (calls : list (Faults * Call))
    : Database R :=
  fold_left step calls db.

(** [t'] comes after [t]: the rows of [t] are still there, unchanged and
    in place, the rows added since have larger identifiers than [t] ever
    held, and the rowid high-water mark has not gone down. *)
Definition extends (t t' : Table R) : Prop :=
  exists added,
    rows t' = rows t ++ added /\
    Forall (fun r => high_water t < row_id r) added /\
    high_water t <= high_water t'.

Definition unique_ids (db : Database R) : Prop :=
  match db with
  | Some t => NoDup (map row_id (rows t))
  | None => True
  end.

(** The database [init_db] makes of a file without the table. *)
Definition fresh_db : Database R := Some (mkTable [] 0).

(** The identifiers 1, 2, ..., [n]. *)
Definition first_ids (n : nat) : list Z := map Z.of_nat (List.seq 1 n).

(** The dict a listing holds for an insert that was given identifier [n]. *)
Definition inserted_dict (n : Z) (date : string) (amount : R)
    (category : string) (subcategory note : option string) : Mapping R :=
  [("id", VInt n); ("date", VText date); ("amount", VReal amount);
   ("category", VText category); ("subcategory", text_or_null subcategory);
   ("note", text_or_null note)].

(** [m["count"]] of a summary row. *)
Definition count_of (m : Mapping R) : Z :=
  match dict_get "count" m with
  | Some (VInt k) => k
  | _ => 0
  end.

(** The summary row is the one of category [c]. *)
Definition has_category (c : string) (m : Mapping R) : bool :=
  match dict_get "category" m with
  | Some (VText k) => String.eqb k c
  | _ => false
  end.

(** The one-row summary of a non-empty list of rows of category [c], and
    the empty summary of no rows. *)
Definition category_summary (c : string) (matching : list (Expense R))
    : list (Mapping R) :=
  match matching with
  | [] => []
  | _ :: _ =>
      [[("category", VText c);
        ("total_amount",
         VReal (fold_left amount_add (map row_amount matching) amount_zero));
        ("count", VInt (Z.of_nat (List.length matching)))]]
  end.
End Driver.

Arguments Cursor R : clear implicits.
Arguments Group R : clear implicits.
Arguments Call R : clear implicits.

(** ** Concrete runs on rational amounts *)

Definition empty_db : Database Q := Some (mkTable [] 0).

Definition db_after (calls : list (Database Q -> Database Q)) : Database Q :=
  fold_left (fun db call => call db) calls empty_db.

Definition add (date : string) (amount : Q) (category : string)
    (db : Database Q) : Database Q :=
  snd (add_expense no_faults db date amount category None None).

(** Three inserts into the empty table. *)
Definition ledger3 : Database Q :=
  db_after [add "2024-01-01" 10 "Food"; add "2024-01-15" 20 "Food";
            add "2024-02-01" 5 "Travel"].

Definition table_of (db : Database Q) : Table Q :=
  match db with
  | Some t => t
  | None => mkTable [] 0
  end.

Definition ledger3_table : Table Q := table_of ledger3.

(** A commit that fails, and a history that lists, fails to insert and then
    inserts. *)
Definition commit_fault : Faults := mkFaults false false true.

Definition history3 : list (Faults * Call Q) :=
  [(no_faults, CallList "2024-01-01" "2024-12-31");
   (commit_fault, CallAdd "2024-03-01" 7%Q "Bills" None None);
   (no_faults, CallAdd "2024-03-02" 8%Q "Bills" (Some "power") None)].

(** A fourth insert, with a subcategory, its receipt, and the January
    listing before it. *)
Definition ledger4 : Database Q :=
  snd (add_expense no_faults ledger3 "2024-01-20" 3%Q "Food"
         (Some "lunch") None).

Definition receipt4 : Mapping Q :=
  [("status", VText "success"); ("id", VInt 4)].

(** A ledger with a row dated by day and one dated by day and time. *)
Definition ledger_times : Database Q :=
  db_after [add "2024-01-31" 6 "Food"; add "2024-01-31T10:00" 7 "Food"].

(** A ledger with a row whose category is the empty string. *)
Definition ledger_blank : Database Q :=
  db_after [add "2024-01-01" 10 "Food"; add "2024-01-02" 4 "";
            add "2024-01-03" 5 "Travel"].

Definition ledger3_january : list (Mapping Q) :=
  [inserted_dict 2 "2024-01-15" 20%Q "Food" None None;
   inserted_dict 1 "2024-01-01" 10%Q "Food" None None].

(** * Facts *)

(** ** Lists *)

Lemma Permutation_filter_compat {A} (q : A -> bool) (l l' : list A) :
  Permutation l l' -> Permutation (filter q l) (filter q l').
Proof.
  induction 1 as [|x l l' _ IH|x y l|l l' l'' _ IH1 _ IH2]; simpl.
  - constructor.
  - destruct (q x); [constructor|]; exact IH.
  - destruct (q x), (q y); try apply Permutation_refl.
    apply perm_swap.
  - eapply Permutation_trans; eassumption.
Qed.

Lemma filter_none {A} (q : A -> bool) (l : list A) :
  (forall x, In x l -> q x = false) -> filter q l = [].
Proof.
  induction l as [|x l IH]; simpl; intros Hq; [reflexivity|].
  rewrite (Hq x (or_introl eq_refl)).
  apply IH. intros y Hy. apply Hq. now right.
Qed.

(** ** The sort *)

Section SortFacts.
Context {A : Type}.
Variable ord : A -> A -> bool.

Lemma insert_sorted_perm (x : A) (l : list A) :
  Permutation (x :: l) (insert_sorted ord x l).
Proof.
  induction l as [|y l IH]; simpl.
  - apply Permutation_refl.
  - destruct (ord x y).
    + apply Permutation_refl.
    + eapply Permutation_trans; [apply perm_swap|].
      now constructor.
Qed.

Lemma sort_by_perm (l : list A) : Permutation l (sort_by ord l).
Proof.
  induction l as [|x l IH]; simpl.
  - constructor.
  - eapply Permutation_trans; [|apply insert_sorted_perm].
    now constructor.
Qed.

Lemma sort_by_In (l : list A) (x : A) : In x (sort_by ord l) <-> In x l.
Proof.
  split; apply Permutation_in;
    [apply Permutation_sym|]; apply sort_by_perm.
Qed.

Lemma sort_by_length (l : list A) :
  List.length (sort_by ord l) = List.length l.
Proof. symmetry. apply Permutation_length, sort_by_perm. Qed.

Hypothesis ord_total : forall x y, ord x y = false -> ord y x = true.

Lemma insert_sorted_hd (x a : A) (l : list A) :
  before ord a x -> HdRel (before ord) a l -> HdRel (before ord) a (insert_sorted ord x l).
Proof.
  intros Hax Hl. destruct l as [|y l]; simpl.
  - now constructor.
  - destruct (ord x y); constructor; [exact Hax|].
    now inversion Hl.
Qed.

Lemma insert_sorted_sorted (x : A) (l : list A) :
  Sorted (before ord) l -> Sorted (before ord) (insert_sorted ord x l).
Proof.
  induction 1 as [|y l Hl IH Hy]; simpl.
  - repeat constructor.
  - destruct (ord x y) eqn:E.
    + constructor; [now constructor|]. now constructor.
    + constructor; [exact IH|].
      apply insert_sorted_hd; [|exact Hy].
      now apply ord_total.
Qed.

Lemma sort_by_sorted (l : list A) : Sorted (before ord) (sort_by ord l).
Proof.
  induction l as [|x l IH]; simpl.
  - constructor.
  - now apply insert_sorted_sorted.
Qed.
End SortFacts.

Lemma Sorted_map {A B} (f : A -> B) (P : A -> A -> Prop)
    (Q : B -> B -> Prop) (l : list A) :
  (forall x y, P x y -> Q (f x) (f y)) ->
  Sorted P l -> Sorted Q (map f l).
Proof.
  intros HPQ. induction 1 as [|x l Hl IH Hx]; simpl; constructor.
  - exact IH.
  - destruct Hx; simpl; constructor. now apply HPQ.
Qed.

(** ** The order on TEXT *)

Lemma ascii_compare_lt_trans (a b c : ascii) :
  Ascii.compare a b = Lt -> Ascii.compare b c = Lt -> Ascii.compare a c = Lt.
Proof.
  unfold Ascii.compare. rewrite !N.compare_lt_iff. apply N.lt_trans.
Qed.

Lemma string_compare_lt_trans (s1 s2 s3 : string) :
  String.compare s1 s2 = Lt -> String.compare s2 s3 = Lt ->
  String.compare s1 s3 = Lt.
Proof.
  revert s2 s3.
  induction s1 as [|a s1 IH]; intros [|b s2] [|c s3]; simpl;
    try discriminate; try reflexivity.
  destruct (Ascii.compare a b) eqn:Eab; try discriminate;
    destruct (Ascii.compare b c) eqn:Ebc; try discriminate;
    intros H12 H23.
  - apply Ascii.compare_eq_iff in Eab, Ebc. subst.
    assert (Ecc : Ascii.compare c c = Eq).
    { unfold Ascii.compare. apply N.compare_refl. }
    rewrite Ecc. eapply IH; eassumption.
  - apply Ascii.compare_eq_iff in Eab. subst. now rewrite Ebc.
  - apply Ascii.compare_eq_iff in Ebc. subst. now rewrite Eab.
  - now rewrite (ascii_compare_lt_trans a b c Eab Ebc).
Qed.

Lemma string_leb_cases (s1 s2 : string) :
  String.leb s1 s2 = true <-> String.compare s1 s2 = Lt \/ s1 = s2.
Proof.
  unfold String.leb. split.
  - destruct (String.compare s1 s2) eqn:E; try discriminate; intros _.
    + right. now apply String.compare_eq_iff.
    + now left.
  - intros [E | ->].
    + now rewrite E.
    + destruct (String.compare s2 s2) eqn:E; try reflexivity.
      pose proof (String.compare_antisym s2 s2) as Ha.
      rewrite E in Ha. discriminate.
Qed.

Lemma string_leb_refl (s : string) : String.leb s s = true.
Proof. apply string_leb_cases. now right. Qed.

Lemma string_leb_trans (s1 s2 s3 : string) :
  String.leb s1 s2 = true -> String.leb s2 s3 = true ->
  String.leb s1 s3 = true.
Proof.
  rewrite !string_leb_cases.
  intros [H12 | ->] [H23 | ->]; auto.
  left. eapply string_compare_lt_trans; eassumption.
Qed.

Lemma string_leb_false (s1 s2 : string) :
  String.leb s1 s2 = false -> String.leb s2 s1 = true.
Proof.
  intros E. destruct (String.leb_total s1 s2) as [E' | E']; [|exact E'].
  congruence.
Qed.

(** Both ends of a range lie in it. *)
Lemma between_endpoints (lo hi : string) :
  String.leb lo hi = true ->
  between lo hi lo = true /\ between lo hi hi = true.
Proof.
  intros Hle. unfold between. now rewrite !string_leb_refl, Hle.
Qed.

(** An inverted range holds no date. *)
Lemma between_inverted (lo hi x : string) :
  String.ltb hi lo = true -> between lo hi x = false.
Proof.
  unfold between, String.ltb. intros Hlt.
  destruct (String.leb lo x) eqn:E1; [|reflexivity].
  destruct (String.leb x hi) eqn:E2; [|reflexivity]. exfalso.
  pose proof (string_leb_trans _ _ _ E1 E2) as E3.
  unfold String.leb in E3. rewrite String.compare_antisym in E3.
  destruct (String.compare hi lo); simpl in *; discriminate.
Qed.

(** ** The tools, step by step *)

Section ToolFacts.
Context {R : Type} `{Amount R}.

Lemma expense_dict_eq (e : Expense R) :
  expense_dict e =
    [("id", VInt (row_id e)); ("date", VText (row_date e));
     ("amount", VReal (row_amount e)); ("category", VText (row_category e));
     ("subcategory", text_or_null (row_subcategory e));
     ("note", text_or_null (row_note e))].
Proof. reflexivity. Qed.

Lemma group_dict_eq (g : Group R) :
  group_dict g =
    [("category", VText (g_category g)); ("total_amount", VReal (g_total g));
     ("count", VInt (g_count g))].
Proof. reflexivity. Qed.

Lemma init_db_eq (f : Faults) (db : Database R) :
  init_db f db =
    if connect_fails f then (Err ConnectError, db)
    else if execute_fails f then (Err ExecuteError, db)
    else
      let db' := match db with
                 | Some t => Some t
                 | None => Some (mkTable [] 0)
                 end in
      if commit_fails f then (Err CommitError, db') else (Ok tt, db').
Proof.
  unfold init_db, with_connection, bind, execute, commit.
  destruct (connect_fails f); [reflexivity|].
  destruct (execute_fails f); [reflexivity|].
  destruct db as [t|]; simpl; destruct (commit_fails f); reflexivity.
Qed.

Lemma add_expense_eq (f : Faults) (db : Database R) (d : string) (a : R)
    (c : string) (sub note : option string) :
  add_expense f db d a c sub note =
    if connect_fails f then (Err ConnectError, db)
    else if execute_fails f then (Err ExecuteError, db)
    else
      match db with
      | None => (Err NoSuchTable, db)
      | Some t =>
          if MAX_ROWID <=? high_water t then (Err DatabaseFull, db)
          else if amount_is_nan a then (Err IntegrityError, db)
          else if commit_fails f then (Err CommitError, db)
          else
            let n := high_water t + 1 in
            (Ok [("status", VText "success"); ("id", VInt n)],
             Some (mkTable (rows t ++ [mkExpense n d a c sub note]) n))
      end.
Proof.
  unfold add_expense, with_connection, bind, execute, commit, ret.
  destruct (connect_fails f); [reflexivity|].
  destruct (execute_fails f); [reflexivity|].
  destruct db as [t|]; [|reflexivity].
  destruct sub, note; simpl;
    destruct (MAX_ROWID <=? high_water t); try reflexivity;
    unfold violates_not_null; simpl;
    destruct (amount_is_nan a); try reflexivity;
    destruct (commit_fails f); reflexivity.
Qed.

Lemma list_expenses_eq (f : Faults) (db : Database R) (s e : string) :
  list_expenses f db s e =
    if connect_fails f then (Err ConnectError, db)
    else if execute_fails f then (Err ExecuteError, db)
    else
      match db with
      | None => (Err NoSuchTable, db)
      | Some t =>
          (Ok (map expense_dict (sort_by date_desc (in_range s e t))), db)
      end.
Proof.
  unfold list_expenses, with_connection, bind, execute, ret.
  destruct (connect_fails f); [reflexivity|].
  destruct (execute_fails f); [reflexivity|].
  destruct db as [t|]; [|reflexivity]. simpl.
  unfold row_dicts. simpl. rewrite map_map.
  unfold in_range.
  rewrite (filter_ext _ (fun r => between s e (row_date r)))
    by (intros r; apply andb_true_r).
  reflexivity.
Qed.

Lemma summarize_eq (f : Faults) (db : Database R) (s e : string)
    (c : option string) :
  summarize f db s e c =
    if connect_fails f then (Err ConnectError, db)
    else if execute_fails f then (Err ExecuteError, db)
    else
      match db with
      | None => (Err NoSuchTable, db)
      | Some t =>
          (Ok (map group_dict
                 (sort_by total_desc
                    (group_by_category
                       (filter (summary_where s e c) (rows t))))), db)
      end.
Proof.
  unfold summarize, summary_where.
  destruct c as [c|]; [destruct (truthy (Some c))|];
    unfold with_connection, bind, execute, ret;
    (destruct (connect_fails f); [reflexivity|]);
    (destruct (execute_fails f); [reflexivity|]);
    (destruct db as [t|]; [|reflexivity]); simpl;
    unfold row_dicts; simpl; rewrite map_map.
  - erewrite filter_ext; [reflexivity|].
    intros r. simpl. now rewrite andb_true_r.
  - erewrite filter_ext; [reflexivity|]. intros r. reflexivity.
  - erewrite filter_ext; [reflexivity|]. intros r. reflexivity.
Qed.
End ToolFacts.

(** * The claims *)

Section RangeListing.
Context {R : Type} `{Amount R}.

Lemma text_or_null_inj (o1 o2 : option string) :
  @text_or_null R o1 = text_or_null o2 -> o1 = o2.
Proof. destruct o1, o2; simpl; congruence. Qed.

Lemma expense_dict_inj (r1 r2 : Expense R) :
  expense_dict r1 = expense_dict r2 -> r1 = r2.
Proof.
  rewrite !expense_dict_eq. intros E.
  destruct r1, r2; simpl in *.
  injection E as E1 E2 E3 E4 E5 E6.
  apply text_or_null_inj in E5, E6. congruence.
Qed.

Lemma date_desc_total (x y : Expense R) :
  date_desc x y = false -> date_desc y x = true.
Proof. unfold date_desc. apply string_leb_false. Qed.

(** C4: for every table and every pair of strings [start_date], [end_date],
    [list_expenses] returns exactly the rows whose stored date [d] satisfies
    [start_date <= d <= end_date] in the lexicographic order on strings,
    both ends included, each as often as the table holds it, and no other
    row. *)
Theorem list_expenses_range_exact (f : Faults) (t : Table R)
    (start_date end_date : string) :
  connect_fails f = false ->
  execute_fails f = false ->
  exists listing,
    list_expenses f (Some t) start_date end_date = (Ok listing, Some t) /\
    Permutation listing
      (map expense_dict
         (filter (fun r => String.leb start_date (row_date r) &&
                           String.leb (row_date r) end_date) (rows t))) /\
    forall r,
      In (expense_dict r) listing <->
      In r (rows t) /\
      String.leb start_date (row_date r) = true /\
      String.leb (row_date r) end_date = true.
Proof.
  intros Hc He. rewrite list_expenses_eq, Hc, He.
  eexists. split; [reflexivity|]. split.
  - apply Permutation_map, Permutation_sym, sort_by_perm.
  - intros r. rewrite in_map_iff. split.
    + intros (r' & E & Hin). apply expense_dict_inj in E. subst r'.
      apply sort_by_In in Hin. unfold in_range, between in Hin.
      apply filter_In in Hin. destruct Hin as [Hin Hb].
      apply andb_true_iff in Hb. tauto.
    + intros (Hin & H1 & H2). exists r. split; [reflexivity|].
      apply sort_by_In. apply filter_In. split; [exact Hin|].
      unfold between. now rewrite H1, H2.
Qed.

(** C5: for every table and date range, the sequence [list_expenses]
    returns is non-increasing by date: the date of every element is
    lexicographically greater than or equal to the date of the element
    that follows it. *)
Theorem list_expenses_sorted (f : Faults) (t : Table R)
    (start_date end_date : string) :
  connect_fails f = false ->
  execute_fails f = false ->
  exists listing,
    list_expenses f (Some t) start_date end_date = (Ok listing, Some t) /\
    Sorted date_not_before listing.
Proof.
  intros Hc He. rewrite list_expenses_eq, Hc, He.
  eexists. split; [reflexivity|].
  apply Sorted_map with (P := before date_desc).
  - intros x y Hxy. exact Hxy.
  - apply sort_by_sorted. exact date_desc_total.
Qed.

Lemma in_range_none (t : Table R) (s e : string) :
  (forall r, In r (rows t) -> between s e (row_date r) = false) ->
  in_range s e t = [].
Proof. intros Hno. unfold in_range. now apply filter_none. Qed.

Lemma summary_where_none (t : Table R) (s e : string) (c : option string) :
  (forall r, In r (rows t) -> between s e (row_date r) = false) ->
  filter (summary_where s e c) (rows t) = [].
Proof.
  intros Hno. apply filter_none. intros r Hr.
  unfold summary_where. now rewrite (Hno r Hr).
Qed.

(** C6: for every table and every date range in which no row matches
    (an empty or inverted range included), [list_expenses] and [summarize]
    both return the empty sequence and raise nothing. *)
Theorem no_match_empty_sequence (f : Faults) (t : Table R)
    (start_date end_date : string) (category : option string) :
  connect_fails f = false ->
  execute_fails f = false ->
  (forall r, In r (rows t) ->
             between start_date end_date (row_date r) = false) ->
  list_expenses f (Some t) start_date end_date = (Ok [], Some t) /\
  summarize f (Some t) start_date end_date category = (Ok [], Some t).
Proof.
  intros Hc He Hno.
  rewrite list_expenses_eq, summarize_eq, Hc, He.
  rewrite in_range_none by exact Hno.
  rewrite summary_where_none by exact Hno.
  split; reflexivity.
Qed.

(** An inverted range matches no row of any table, so both tools answer
    with the empty sequence. *)
Lemma inverted_range_empty_sequence (f : Faults) (t : Table R)
    (start_date end_date : string) (category : option string) :
  connect_fails f = false ->
  execute_fails f = false ->
  String.ltb end_date start_date = true ->
  list_expenses f (Some t) start_date end_date = (Ok [], Some t) /\
  summarize f (Some t) start_date end_date category = (Ok [], Some t).
Proof.
  intros Hc He Hinv.
  rewrite list_expenses_eq, summarize_eq, Hc, He.
  rewrite in_range_none, summary_where_none;
    try (intros r _; now apply between_inverted).
  split; reflexivity.
Qed.
End RangeListing.

Section Outcomes.
Context {R : Type} `{Amount R}.

(** C7: no call succeeds in part.  [add_expense] either commits exactly
    one new row and returns its identifier, or raises and leaves the
    database as it was; [list_expenses] and [summarize] either return the
    complete result or raise, and never a shorter sequence. *)
Theorem no_partial_success (f : Faults) (db : Database R)
    (date : string) (amount : R) (category : string)
    (subcategory note : option string)
    (start_date end_date : string) (filter_category : option string) :
  ((exists t n,
      db = Some t /\
      add_expense f db date amount category subcategory note =
        (Ok [("status", VText "success"); ("id", VInt n)],
         Some (mkTable
                 (rows t ++ [mkExpense n date amount category
                               subcategory note]) n))) \/
   (exists err,
      add_expense f db date amount category subcategory note =
        (Err err, db))) /\
  ((exists t,
      db = Some t /\
      list_expenses f db start_date end_date =
        (Ok (map expense_dict
               (sort_by date_desc (in_range start_date end_date t))), db)) \/
   (exists err, list_expenses f db start_date end_date = (Err err, db))) /\
  ((exists t,
      db = Some t /\
      summarize f db start_date end_date filter_category =
        (Ok (map group_dict
               (sort_by total_desc
                  (group_by_category
                     (filter
                        (summary_where start_date end_date filter_category)
                        (rows t))))), db)) \/
   (exists err,
      summarize f db start_date end_date filter_category = (Err err, db))).
Proof.
  rewrite add_expense_eq, list_expenses_eq, summarize_eq.
  destruct (connect_fails f); [repeat split; right; eexists; reflexivity|].
  destruct (execute_fails f); [repeat split; right; eexists; reflexivity|].
  destruct db as [t|]; [|repeat split; right; eexists; reflexivity].
  repeat split; try (left; exists t; split; reflexivity).
  destruct (MAX_ROWID <=? high_water t); [right; eexists; reflexivity|].
  destruct (amount_is_nan amount); [right; eexists; reflexivity|].
  destruct (commit_fails f); [right; eexists; reflexivity|].
  left. exists t, (high_water t + 1). split; reflexivity.
Qed.

Lemma init_db_times_fixed (n : nat) (f : Faults) (db : Database R) :
  snd (init_db f db) = db -> init_db_times n f db = db.
Proof.
  intros Hfix. induction n as [|n IH]; simpl; [reflexivity|].
  now rewrite Hfix.
Qed.

(** C8: schema initialisation is idempotent.  On a store that does not
    fail, any number of calls in a row, twice in particular, leaves the
    database, and so the table shape, that one call leaves; a call on a
    database that has the table returns without error and changes
    nothing; and under any faults no row of an existing table is lost. *)
Theorem init_db_idempotent (f : Faults) (db : Database R) (t : Table R)
    (n : nat) :
  connect_fails f = false ->
  execute_fails f = false ->
  commit_fails f = false ->
  init_db_times (S n) f db = snd (init_db f db) /\
  table_shape (init_db_times (S n) f db) = table_shape (snd (init_db f db)) /\
  table_shape (snd (init_db f db)) = Some expenses_schema /\
  init_db f (snd (init_db f db)) = (Ok tt, snd (init_db f db)) /\
  init_db f (Some t) = (Ok tt, Some t) /\
  (forall f', snd (init_db f' (Some t)) = Some t).
Proof.
  intros Hc He Hm.
  assert (Hfix : snd (init_db f (snd (init_db f db))) = snd (init_db f db)).
  { rewrite !init_db_eq, Hc, He, Hm. destruct db; reflexivity. }
  repeat split.
  - simpl. now apply init_db_times_fixed.
  - simpl. now rewrite init_db_times_fixed by exact Hfix.
  - rewrite init_db_eq, Hc, He, Hm. destruct db; reflexivity.
  - rewrite !init_db_eq, Hc, He, Hm. destruct db; reflexivity.
  - now rewrite init_db_eq, Hc, He, Hm.
  - intros f'. rewrite init_db_eq.
    destruct (connect_fails f'), (execute_fails f'), (commit_fails f');
      reflexivity.
Qed.
End Outcomes.

Section Identifiers.
Context {R : Type} `{Amount R}.

Lemma max_rowid_nonneg (rs : list (Expense R)) : 0 <= max_rowid rs.
Proof.
  unfold max_rowid. induction rs as [|r rs IH]; simpl; lia.
Qed.

Lemma max_rowid_ge (rs : list (Expense R)) (r : Expense R) :
  In r rs -> row_id r <= max_rowid rs.
Proof.
  unfold max_rowid. induction rs as [|r' rs IH]; simpl; [tauto|].
  intros [-> | Hin]; [lia|]. specialize (IH Hin). lia.
Qed.

Lemma max_rowid_app (rs rs' : list (Expense R)) :
  max_rowid (rs ++ rs') = Z.max (max_rowid rs) (max_rowid rs').
Proof.
  unfold max_rowid. induction rs as [|r rs IH]; simpl.
  - pose proof (max_rowid_nonneg rs') as Hn. unfold max_rowid in Hn. lia.
  - rewrite IH. lia.
Qed.

Lemma high_water_ge (t : Table R) (r : Expense R) :
  In r (rows t) -> row_id r <= high_water t.
Proof.
  intros Hin. apply max_rowid_ge in Hin. unfold high_water. lia.
Qed.

Lemma high_water_insert (t : Table R) (row : Expense R) :
  row_id row = high_water t + 1 ->
  high_water (mkTable (rows t ++ [row]) (row_id row)) = row_id row.
Proof.
  intros E. unfold high_water at 1. simpl.
  rewrite max_rowid_app. unfold max_rowid at 2. simpl.
  pose proof (max_rowid_nonneg (rows t)).
  unfold high_water in E. lia.
Qed.

(** What a successful [add_expense] has done. *)
Lemma add_expense_ok_inv (f : Faults) (db db' : Database R) (d : string)
    (a : R) (c : string) (sub note : option string) (r : Mapping R) :
  add_expense f db d a c sub note = (Ok r, db') ->
  exists t,
    db = Some t /\
    r = [("status", VText "success"); ("id", VInt (high_water t + 1))] /\
    db' = Some (mkTable
                  (rows t ++ [mkExpense (high_water t + 1) d a c sub note])
                  (high_water t + 1)).
Proof.
  rewrite add_expense_eq.
  destruct (connect_fails f); [discriminate|].
  destruct (execute_fails f); [discriminate|].
  destruct db as [t|]; [|discriminate].
  destruct (MAX_ROWID <=? high_water t); [discriminate|].
  destruct (amount_is_nan a); [discriminate|].
  destruct (commit_fails f); [discriminate|].
  intros E. injection E as <- <-. now exists t.
Qed.

Lemma extends_refl (t : Table R) : extends t t.
Proof.
  exists []. repeat split; [now rewrite app_nil_r | constructor | lia].
Qed.

Lemma extends_trans (t1 t2 t3 : Table R) :
  extends t1 t2 -> extends t2 t3 -> extends t1 t3.
Proof.
  intros (l1 & E1 & F1 & H1) (l2 & E2 & F2 & H2).
  exists (l1 ++ l2). repeat split; [|apply Forall_app; split|lia].
  - now rewrite E2, E1, app_assoc.
  - exact F1.
  - eapply Forall_impl; [|exact F2]. simpl. intros r Hr. lia.
Qed.

Lemma extends_insert (t : Table R) (row : Expense R) :
  row_id row = high_water t + 1 ->
  extends t (mkTable (rows t ++ [row]) (row_id row)).
Proof.
  intros E. exists [row]. repeat split.
  - repeat constructor. lia.
  - rewrite high_water_insert by exact E. lia.
Qed.

Lemma unique_insert (t : Table R) (row : Expense R) :
  row_id row = high_water t + 1 ->
  NoDup (map row_id (rows t)) ->
  NoDup (map row_id (rows t ++ [row])).
Proof.
  intros E Hnd. rewrite map_app. simpl.
  apply NoDup_app.
  - exact Hnd.
  - repeat constructor. simpl. tauto.
  - intros n Hin [<- | []].
    apply in_map_iff in Hin. destruct Hin as (r & Er & Hr).
    apply high_water_ge in Hr. lia.
Qed.

(** Every call leaves an existing table in place and only ever extends
    it. *)
Lemma step_extends (t : Table R) (fc : Faults * Call R) :
  exists t', step (Some t) fc = Some t' /\ extends t t'.
Proof.
  destruct fc as [f call]. unfold step. simpl.
  destruct call as [|d a c sub note|s e|s e c].
  - rewrite init_db_eq.
    destruct (connect_fails f), (execute_fails f), (commit_fails f);
      exists t; split; try reflexivity; apply extends_refl.
  - rewrite add_expense_eq.
    destruct (connect_fails f);
      [exists t; split; [reflexivity|apply extends_refl]|].
    destruct (execute_fails f);
      [exists t; split; [reflexivity|apply extends_refl]|].
    destruct (MAX_ROWID <=? high_water t);
      [exists t; split; [reflexivity|apply extends_refl]|].
    destruct (amount_is_nan a);
      [exists t; split; [reflexivity|apply extends_refl]|].
    destruct (commit_fails f);
      [exists t; split; [reflexivity|apply extends_refl]|].
    eexists. split; [reflexivity|].
    apply (extends_insert t (mkExpense (high_water t + 1) d a c sub note)).
    reflexivity.
  - rewrite list_expenses_eq.
    destruct (connect_fails f), (execute_fails f);
      exists t; split; try reflexivity; apply extends_refl.
  - rewrite summarize_eq.
    destruct (connect_fails f), (execute_fails f);
      exists t; split; try reflexivity; apply extends_refl.
Qed.

Lemma run_extends (calls : list (Faults * Call R)) (t : Table R) :
  exists t', run (Some t) calls = Some t' /\ extends t t'.
Proof.
  revert t. induction calls as [|fc calls IH]; intros t.
  - exists t. split; [reflexivity|apply extends_refl].
  - destruct (step_extends t fc) as (t1 & E1 & X1).
    destruct (IH t1) as (t2 & E2 & X2).
    exists t2. split.
    + unfold run in *. simpl. now rewrite E1.
    + eapply extends_trans; eassumption.
Qed.

Lemma step_unique (db : Database R) (fc : Faults * Call R) :
  unique_ids db -> unique_ids (step db fc).
Proof.
  destruct fc as [f call]. unfold step. simpl. intros Hu.
  destruct call as [|d a c sub note|s e|s e c].
  - rewrite init_db_eq.
    destruct (connect_fails f), (execute_fails f), (commit_fails f), db;
      simpl; try exact Hu; constructor.
  - rewrite add_expense_eq.
    destruct (connect_fails f); [exact Hu|].
    destruct (execute_fails f); [exact Hu|].
    destruct db as [t|]; [|exact Hu].
    destruct (MAX_ROWID <=? high_water t); [exact Hu|].
    destruct (amount_is_nan a); [exact Hu|].
    destruct (commit_fails f); [exact Hu|].
    simpl. now apply unique_insert.
  - rewrite list_expenses_eq.
    destruct (connect_fails f), (execute_fails f), db; exact Hu.
  - rewrite summarize_eq.
    destruct (connect_fails f), (execute_fails f), db; exact Hu.
Qed.

Lemma run_unique (calls : list (Faults * Call R)) (db : Database R) :
  unique_ids db -> unique_ids (run db calls).
Proof.
  revert db. induction calls as [|fc calls IH]; intros db Hu.
  - exact Hu.
  - unfold run in *. simpl. apply IH. now apply step_unique.
Qed.

(** C9: identifiers are unique and grow, and rows are never changed.
    Take a database with unique identifiers, a successful insert, any
    history of calls after it, and a second successful insert.  The second
    identifier is strictly larger than the first; the table then holds
    the rows it held at the start, unchanged and in place, then the first
    new row, the rows added in between, and the second new row; and its
    identifiers are unique. *)
Theorem ids_unique_increasing_rows_kept
    (db db1 db3 : Database R) (calls : list (Faults * Call R))
    (f1 f2 : Faults) (d1 d2 : string) (a1 a2 : R) (c1 c2 : string)
    (sub1 sub2 note1 note2 : option string) (r1 r2 : Mapping R) :
  unique_ids db ->
  add_expense f1 db d1 a1 c1 sub1 note1 = (Ok r1, db1) ->
  add_expense f2 (run db1 calls) d2 a2 c2 sub2 note2 = (Ok r2, db3) ->
  exists n1 n2 t t3 added,
    dict_get "id" r1 = Some (VInt n1) /\
    dict_get "id" r2 = Some (VInt n2) /\
    n1 < n2 /\
    db = Some t /\
    db3 = Some t3 /\
    rows t3 =
      rows t ++ mkExpense n1 d1 a1 c1 sub1 note1 :: added ++
      [mkExpense n2 d2 a2 c2 sub2 note2] /\
    NoDup (map row_id (rows t3)).
Proof.
  intros Hu Hadd1 Hadd2.
  assert (Hu3 : unique_ids db3).
  { change db3 with (snd (Ok r2, db3)). rewrite <- Hadd2.
    apply (step_unique _ (f2, CallAdd d2 a2 c2 sub2 note2)).
    apply run_unique.
    change db1 with (snd (Ok r1, db1)). rewrite <- Hadd1.
    now apply (step_unique _ (f1, CallAdd d1 a1 c1 sub1 note1)). }
  apply add_expense_ok_inv in Hadd1. destruct Hadd1 as (t & -> & -> & ->).
  set (row1 := mkExpense (high_water t + 1) d1 a1 c1 sub1 note1) in *.
  set (t1 := mkTable (rows t ++ [row1]) (high_water t + 1)) in *.
  destruct (run_extends calls t1) as (t2 & Erun & added & Eadded & _ & Hhw).
  rewrite Erun in Hadd2.
  apply add_expense_ok_inv in Hadd2. destruct Hadd2 as (t2' & E2 & -> & ->).
  injection E2 as <-.
  assert (Hhw1 : high_water t1 = high_water t + 1).
  { apply (high_water_insert t row1). reflexivity. }
  exists (high_water t + 1), (high_water t2 + 1), t. eexists. exists added.
  repeat split.
  - lia.
  - simpl. rewrite Eadded. subst t1. simpl.
    now rewrite <- !app_assoc.
  - exact Hu3.
Qed.
End Identifiers.

Section InsertThenRead.
Context {R : Type} `{Amount R}.

Lemma has_id_expense_dict (n : Z) (r : Expense R) :
  has_id n (expense_dict r) = (row_id r =? n).
Proof. reflexivity. Qed.

(** C1: after a successful insert of date [d], amount [a], category [c]
    without subcategory or note, returning identifier [n], a listing made
    after it (directly, or after any further calls) over any range that
    contains [d] holds exactly one row with identifier [n], and that row
    has date [d], amount [a], category [c] and null for subcategory and
    note. *)
Theorem insert_then_list (f f' : Faults) (db db' : Database R)
    (d : string) (a : R) (c : string) (r : Mapping R)
    (calls : list (Faults * Call R)) (start_date end_date : string) :
  add_expense f db d a c None None = (Ok r, db') ->
  connect_fails f' = false ->
  execute_fails f' = false ->
  between start_date end_date d = true ->
  exists n listing,
    dict_get "id" r = Some (VInt n) /\
    list_expenses f' (run db' calls) start_date end_date =
      (Ok listing, run db' calls) /\
    filter (has_id n) listing =
      [[("id", VInt n); ("date", VText d); ("amount", VReal a);
        ("category", VText c); ("subcategory", VNull); ("note", VNull)]].
Proof.
  intros Hadd Hc He Hin.
  apply add_expense_ok_inv in Hadd. destruct Hadd as (t & -> & -> & ->).
  set (n := high_water t + 1).
  set (row := mkExpense n d a c None None).
  destruct (run_extends calls (mkTable (rows t ++ [row]) n))
    as (t' & -> & added & Eadded & Hadded & _).
  assert (Ehw : high_water (mkTable (rows t ++ [row]) n) = n)
    by (apply (high_water_insert t row); reflexivity).
  rewrite Ehw in Hadded.
  simpl in Eadded, Hadded.
  exists n. eexists. split; [reflexivity|].
  rewrite list_expenses_eq, Hc, He. split; [reflexivity|].
  rewrite filter_map_swap.
  rewrite (filter_ext _ (fun x => row_id x =? n))
    by (intros x; apply has_id_expense_dict).
  assert (E : filter (fun x => row_id x =? n)
                (in_range start_date end_date t') = [row]).
  { unfold in_range. rewrite Eadded, !filter_app. simpl.
    change (row_date row) with d. rewrite Hin. rewrite ?filter_app. simpl.
    change (row_id row) with n. rewrite Z.eqb_refl.
    rewrite !filter_none; [reflexivity| |].
    - intros x Hx. apply filter_In in Hx. destruct Hx as [Hx _].
      rewrite Forall_forall in Hadded. apply Hadded in Hx.
      apply Z.eqb_neq. lia.
    - intros x Hx. apply filter_In in Hx. destruct Hx as [Hx _].
      apply high_water_ge in Hx. apply Z.eqb_neq. subst n. lia. }
  assert (P : Permutation [row]
                (filter (fun x => row_id x =? n)
                   (sort_by date_desc (in_range start_date end_date t')))).
  { eapply Permutation_trans;
      [|apply Permutation_filter_compat, sort_by_perm].
    rewrite E. apply Permutation_refl. }
  apply Permutation_length_1_inv in P. rewrite P. reflexivity.
Qed.
End InsertThenRead.

Section Summary.
Context {R : Type} `{Amount R}.

Lemma group_keys_In (rs : list (Expense R)) (c : string) :
  In c (group_keys rs) <-> exists r, In r rs /\ row_category r = c.
Proof.
  unfold group_keys. rewrite sort_by_In, nodup_In, in_map_iff.
  split; intros (r & H1 & H2); exists r; tauto.
Qed.

Lemma group_keys_NoDup (rs : list (Expense R)) : NoDup (group_keys rs).
Proof.
  unfold group_keys.
  eapply Permutation_NoDup; [apply sort_by_perm|apply NoDup_nodup].
Qed.

Lemma group_categories (rs : list (Expense R)) :
  map g_category (group_by_category rs) = group_keys rs.
Proof.
  unfold group_by_category. rewrite map_map. simpl. apply map_id.
Qed.

Lemma sorted_groups_categories (rs : list (Expense R)) :
  Permutation (map g_category (sort_by total_desc (group_by_category rs)))
    (group_keys rs).
Proof.
  rewrite <- group_categories.
  apply Permutation_map, Permutation_sym, sort_by_perm.
Qed.


Lemma filter_filter_andb {A} (p q : A -> bool) (l : list A) :
  filter (fun x => p x && q x) l = filter q (filter p l).
Proof.
  induction l as [|x l IH]; simpl; [reflexivity|].
  destruct (p x); simpl; [|exact IH].
  destruct (q x); now rewrite IH.
Qed.

Lemma NoDup_constant_length {A} (c : A) (l : list A) :
  NoDup l -> (forall x, In x l -> x = c) -> (List.length l <= 1)%nat.
Proof.
  intros Hnd Hall. destruct l as [|x [|y l]]; simpl; try lia.
  exfalso. inversion Hnd as [|? ? Hx _]; subst. apply Hx.
  rewrite (Hall x), (Hall y); simpl; auto.
Qed.

Lemma filter_then_group_length (s e c : string) (t : Table R) :
  (List.length (filter_then_group s e c t) <= 1)%nat.
Proof.
  unfold filter_then_group, group_by_category.
  rewrite length_map, sort_by_length, length_map.
  apply (NoDup_constant_length c); [apply group_keys_NoDup|].
  intros x Hx. apply group_keys_In in Hx. destruct Hx as (r & Hr & <-).
  apply filter_In in Hr. destruct Hr as [_ Hr].
  now apply String.eqb_eq in Hr.
Qed.

(** C3, as amended: for every table, date range and non-empty category
    [c], [summarize] returns what restricting the rows of the range to
    category [c] and then grouping returns, which is at most one row. *)
Theorem summarize_category_filters_then_groups (f : Faults) (t : Table R)
    (start_date end_date c : string) :
  c <> "" ->
  connect_fails f = false ->
  execute_fails f = false ->
  summarize f (Some t) start_date end_date (Some c) =
    (Ok (filter_then_group start_date end_date c t), Some t) /\
  (List.length (filter_then_group start_date end_date c t) <= 1)%nat.
Proof.
  intros Hne Hc He. split; [|apply filter_then_group_length].
  rewrite summarize_eq, Hc, He. unfold filter_then_group, in_range.
  rewrite <- filter_filter_andb.
  do 5 f_equal. apply filter_ext. intros r. unfold summary_where.
  assert (Et : truthy (Some c) = true).
  { simpl. apply negb_true_iff. now apply String.eqb_neq. }
  now rewrite Et.
Qed.
End Summary.

(** * Further properties of the tools *)

(** ** A write, then a read *)

Section WriteThenRead.
Context {R : Type} `{Amount R}.

Lemma in_range_insert (t : Table R) (row : Expense R) (n : Z)
    (s e : string) :
  in_range s e (mkTable (rows t ++ [row]) n) =
    in_range s e t ++ (if between s e (row_date row) then [row] else []).
Proof.
  unfold in_range. simpl. rewrite filter_app. simpl.
  destruct (between s e (row_date row)); reflexivity.
Qed.

Lemma no_row_above_high_water (t : Table R) (s e : string) :
  filter (fun x => row_id x =? high_water t + 1) (in_range s e t) = [].
Proof.
  apply filter_none. intros x Hx.
  apply filter_In in Hx. destruct Hx as [Hx _].
  apply high_water_ge in Hx. apply Z.eqb_neq. lia.
Qed.

Lemma sort_by_snoc_perm {A} (ord : A -> A -> bool) (l : list A) (x : A) :
  Permutation (sort_by ord (l ++ [x])) (x :: sort_by ord l).
Proof.
  eapply Permutation_trans; [apply Permutation_sym, sort_by_perm|].
  eapply Permutation_trans; [apply Permutation_sym, Permutation_cons_append|].
  constructor. apply sort_by_perm.
Qed.

(** X1: the optional fields come back as they went in.  After a successful
    insert with any subcategory and note, given or not, a listing over a
    range that contains the date holds exactly one row with the returned
    identifier; its subcategory and note are the given texts, or null where
    none was given. *)
Theorem optional_fields_round_trip (f f' : Faults) (db db' : Database R)
    (d : string) (a : R) (c : string) (sub note : option string)
    (r : Mapping R) (start_date end_date : string) :
  add_expense f db d a c sub note = (Ok r, db') ->
  connect_fails f' = false ->
  execute_fails f' = false ->
  between start_date end_date d = true ->
  exists n listing,
    dict_get "id" r = Some (VInt n) /\
    list_expenses f' db' start_date end_date = (Ok listing, db') /\
    filter (has_id n) listing = [inserted_dict n d a c sub note] /\
    dict_get "subcategory" (inserted_dict n d a c sub note) =
      Some (match sub with Some x => VText x | None => VNull end) /\
    dict_get "note" (inserted_dict n d a c sub note) =
      Some (match note with Some x => VText x | None => VNull end).
Proof.
  intros Hadd Hc He Hin.
  apply add_expense_ok_inv in Hadd. destruct Hadd as (t & -> & -> & ->).
  set (n := high_water t + 1).
  exists n. eexists. split; [reflexivity|].
  rewrite list_expenses_eq, Hc, He. split; [reflexivity|].
  split; [|split; reflexivity].
  rewrite filter_map_swap.
  rewrite (filter_ext _ (fun x => row_id x =? n)) by reflexivity.
  set (row := mkExpense n d a c sub note).
  assert (P : Permutation [row]
                (filter (fun x => row_id x =? n)
                   (sort_by date_desc
                      (in_range start_date end_date
                         (mkTable (rows t ++ [row]) n))))).
  { eapply Permutation_trans;
      [|apply Permutation_filter_compat, sort_by_perm].
    rewrite in_range_insert. change (row_date row) with d. rewrite Hin.
    rewrite filter_app. unfold n at 1. rewrite no_row_above_high_water.
    simpl. change (row_id row) with n. rewrite Z.eqb_refl.
    apply Permutation_refl. }
  apply Permutation_length_1_inv in P. rewrite P. reflexivity.
Qed.

(** X2: an insert dated outside a range changes nothing a read over that
    range returns: the listing and the summary, with any category, are
    what they were before the insert. *)
Theorem insert_outside_range_unseen (f f' : Faults) (db db' : Database R)
    (d : string) (a : R) (c : string) (sub note : option string)
    (r : Mapping R) (start_date end_date : string)
    (category : option string) :
  add_expense f db d a c sub note = (Ok r, db') ->
  between start_date end_date d = false ->
  fst (list_expenses f' db' start_date end_date) =
    fst (list_expenses f' db start_date end_date) /\
  fst (summarize f' db' start_date end_date category) =
    fst (summarize f' db start_date end_date category).
Proof.
  intros Hadd Hout.
  apply add_expense_ok_inv in Hadd. destruct Hadd as (t & -> & -> & ->).
  rewrite !list_expenses_eq, !summarize_eq.
  destruct (connect_fails f'); [split; reflexivity|].
  destruct (execute_fails f'); [split; reflexivity|].
  simpl. rewrite in_range_insert. simpl. rewrite Hout, app_nil_r.
  rewrite filter_app. simpl. unfold summary_where at 2. simpl.
  rewrite Hout. simpl. rewrite app_nil_r. split; reflexivity.
Qed.

(** X3: an insert dated inside a range adds its row to the listing of that
    range and touches no other: the listing after the insert is, up to
    order, the new row together with the listing before it, so it is one
    longer. *)
Theorem insert_in_range_extends_listing (f f' : Faults)
    (db db' : Database R) (d : string) (a : R) (c : string)
    (sub note : option string) (r : Mapping R)
    (start_date end_date : string) (listing : list (Mapping R)) :
  add_expense f db d a c sub note = (Ok r, db') ->
  between start_date end_date d = true ->
  list_expenses f' db start_date end_date = (Ok listing, db) ->
  exists n listing',
    dict_get "id" r = Some (VInt n) /\
    list_expenses f' db' start_date end_date = (Ok listing', db') /\
    Permutation listing' (inserted_dict n d a c sub note :: listing) /\
    List.length listing' = S (List.length listing).
Proof.
  intros Hadd Hin Hlist.
  apply add_expense_ok_inv in Hadd. destruct Hadd as (t & -> & -> & ->).
  rewrite list_expenses_eq in Hlist. rewrite list_expenses_eq.
  destruct (connect_fails f'); [discriminate|].
  destruct (execute_fails f'); [discriminate|].
  injection Hlist as <-.
  set (n := high_water t + 1). set (row := mkExpense n d a c sub note).
  assert (P : Permutation
                (map expense_dict
                   (sort_by date_desc
                      (in_range start_date end_date
                         (mkTable (rows t ++ [row]) n))))
                (inserted_dict n d a c sub note ::
                 map expense_dict
                   (sort_by date_desc (in_range start_date end_date t)))).
  { rewrite in_range_insert. change (row_date row) with d. rewrite Hin.
    change (inserted_dict n d a c sub note) with (expense_dict row).
    rewrite <- map_cons. apply Permutation_map, sort_by_snoc_perm. }
  exists n. eexists. split; [reflexivity|]. split; [reflexivity|].
  split; [exact P|].
  apply Permutation_length in P. exact P.
Qed.

(** X4: a read writes nothing.  Whatever the faults and whatever it
    returns or raises, [list_expenses] and [summarize] leave the database
    as they found it. *)
Theorem reads_leave_database (f : Faults) (db : Database R)
    (start_date end_date : string) (category : option string) :
  snd (list_expenses f db start_date end_date) = db /\
  snd (summarize f db start_date end_date category) = db.
Proof.
  rewrite list_expenses_eq, summarize_eq.
  destruct (connect_fails f), (execute_fails f), db; split; reflexivity.
Qed.

(** X5: without the table the tools raise.  On a database that
    [init_db] has not prepared, and with a store that does not fail
    otherwise, each of the three tools raises the error of the missing
    table and creates nothing. *)
Theorem tools_raise_without_table (f : Faults)
    (d : string) (a : R) (c : string) (sub note : option string)
    (start_date end_date : string) (category : option string) :
  connect_fails f = false ->
  execute_fails f = false ->
  add_expense f None d a c sub note = (Err NoSuchTable, None) /\
  list_expenses f None start_date end_date = (Err NoSuchTable, None) /\
  summarize f None start_date end_date category = (Err NoSuchTable, None).
Proof.
  intros Hc He.
  rewrite add_expense_eq, list_expenses_eq, summarize_eq, Hc, He.
  repeat split.
Qed.

(** X6: [init_db] makes the tools usable.  After a successful [init_db] on
    a database without the table, the listing and the summary of any range
    are empty, the first insert of an amount that is a number is given
    identifier 1, and an insert whose amount is NaN is refused by the
    NOT NULL column and stores nothing. *)
Theorem init_db_then_tools (f f' : Faults) (db0 : Database R)
    (d : string) (a : R) (c : string) (sub note : option string)
    (start_date end_date : string) (category : option string) :
  init_db f None = (Ok tt, db0) ->
  connect_fails f' = false ->
  execute_fails f' = false ->
  commit_fails f' = false ->
  amount_is_nan a = false ->
  list_expenses f' db0 start_date end_date = (Ok [], db0) /\
  summarize f' db0 start_date end_date category = (Ok [], db0) /\
  add_expense f' db0 d a c sub note =
    (Ok [("status", VText "success"); ("id", VInt 1)],
     Some (mkTable [mkExpense 1 d a c sub note] 1)) /\
  (forall a',
      amount_is_nan a' = true ->
      add_expense f' db0 d a' c sub note = (Err IntegrityError, db0)).
Proof.
  intros Hinit Hc He Hm Hnum. rewrite init_db_eq in Hinit.
  destruct (connect_fails f); [discriminate|].
  destruct (execute_fails f); [discriminate|].
  simpl in Hinit. destruct (commit_fails f); [discriminate|].
  injection Hinit as <-.
  rewrite list_expenses_eq, summarize_eq, add_expense_eq, Hc, He, Hm, Hnum.
  repeat split.
  intros a' Hnan. now rewrite add_expense_eq, Hc, He, Hnan.
Qed.
End WriteThenRead.

(** ** Identifiers *)

Section Numbering.
Context {R : Type} `{Amount R}.

Lemma high_water_nonneg (t : Table R) : 0 <= high_water t.
Proof.
  unfold high_water. pose proof (max_rowid_nonneg (rows t)). lia.
Qed.

(** X7: an identifier is positive and fits a signed 64-bit integer.
    Whatever the table holds, the identifier a successful insert returns
    lies between 1 and the largest rowid, and the row is stored under it. *)
Theorem returned_id_in_bounds (f : Faults) (db db' : Database R)
    (d : string) (a : R) (c : string) (sub note : option string)
    (r : Mapping R) :
  add_expense f db d a c sub note = (Ok r, db') ->
  exists n t',
    dict_get "id" r = Some (VInt n) /\
    1 <= n <= MAX_ROWID /\
    db' = Some t' /\
    In (mkExpense n d a c sub note) (rows t').
Proof.
  rewrite add_expense_eq.
  destruct (connect_fails f); [discriminate|].
  destruct (execute_fails f); [discriminate|].
  destruct db as [t|]; [|discriminate].
  destruct (MAX_ROWID <=? high_water t) eqn:Efull; [discriminate|].
  destruct (amount_is_nan a); [discriminate|].
  destruct (commit_fails f); [discriminate|].
  intros E. injection E as <- <-.
  apply Z.leb_gt in Efull. pose proof (high_water_nonneg t).
  exists (high_water t + 1). eexists. repeat split; try lia.
  simpl. apply in_or_app. right. now left.
Qed.

(** A table that only this program has written: its rows carry the
    identifiers 1, 2, ... in order and the counter stands at their
    number. *)
Lemma first_ids_snoc (n : nat) :
  first_ids (S n) = first_ids n ++ [Z.of_nat n + 1].
Proof.
  unfold first_ids. rewrite seq_S, map_app. simpl.
  do 2 f_equal. lia.
Qed.

Lemma max_first_ids (rs : list (Expense R)) :
  map row_id rs = first_ids (List.length rs) ->
  max_rowid rs = Z.of_nat (List.length rs).
Proof.
  induction rs as [|r rs IH] using rev_ind; [reflexivity|].
  rewrite length_app, map_app. simpl.
  replace (List.length rs + 1)%nat with (S (List.length rs)) by lia.
  rewrite first_ids_snoc. intros E.
  apply app_inj_tail in E. destruct E as [E1 E2].
  rewrite max_rowid_app, (IH E1). unfold max_rowid. simpl. lia.
Qed.

Lemma step_numbering (t : Table R) (fc : Faults * Call R) :
  map row_id (rows t) = first_ids (List.length (rows t)) ->
  seq t = Z.of_nat (List.length (rows t)) ->
  exists t',
    step (Some t) fc = Some t' /\
    map row_id (rows t') = first_ids (List.length (rows t')) /\
    seq t' = Z.of_nat (List.length (rows t')).
Proof.
  intros Hids Hseq. destruct fc as [f call]. unfold step. simpl.
  destruct call as [|d a c sub note|s e|s e c].
  - rewrite init_db_eq.
    destruct (connect_fails f), (execute_fails f), (commit_fails f);
      exists t; auto.
  - rewrite add_expense_eq.
    destruct (connect_fails f); [exists t; auto|].
    destruct (execute_fails f); [exists t; auto|].
    destruct (MAX_ROWID <=? high_water t); [exists t; auto|].
    destruct (amount_is_nan a); [exists t; auto|].
    destruct (commit_fails f); [exists t; auto|].
    eexists. split; [reflexivity|]. simpl.
    assert (Ehw : high_water t = Z.of_nat (List.length (rows t))).
    { unfold high_water. rewrite (max_first_ids _ Hids). lia. }
    rewrite length_app, map_app. simpl.
    replace (List.length (rows t) + 1)%nat
      with (S (List.length (rows t))) by lia.
    rewrite first_ids_snoc, Hids, Ehw. split; [reflexivity|lia].
  - rewrite list_expenses_eq.
    destruct (connect_fails f), (execute_fails f); exists t; auto.
  - rewrite summarize_eq.
    destruct (connect_fails f), (execute_fails f); exists t; auto.
Qed.

Lemma run_numbering (calls : list (Faults * Call R)) (t : Table R) :
  map row_id (rows t) = first_ids (List.length (rows t)) ->
  seq t = Z.of_nat (List.length (rows t)) ->
  exists t',
    run (Some t) calls = Some t' /\
    map row_id (rows t') = first_ids (List.length (rows t')) /\
    seq t' = Z.of_nat (List.length (rows t')).
Proof.
  revert t. induction calls as [|fc calls IH]; intros t Hids Hseq.
  - exists t. auto.
  - destruct (step_numbering t fc Hids Hseq) as (t1 & E1 & Hids1 & Hseq1).
    destruct (IH t1 Hids1 Hseq1) as (t2 & E2 & Hids2 & Hseq2).
    exists t2. split; [|auto].
    unfold run in *. simpl. now rewrite E1.
Qed.

(** X8: identifiers are handed out without gaps.  Starting from the empty
    table [init_db] creates, after any history of calls, failed ones
    included, the rows carry the identifiers 1, 2, ..., k in order, and the
    next successful insert returns k + 1: a failed insert uses up no
    identifier. *)
Theorem ids_without_gaps (calls : list (Faults * Call R)) (f : Faults)
    (d : string) (a : R) (c : string) (sub note : option string)
    (r : Mapping R) (db' : Database R) :
  add_expense f (run fresh_db calls) d a c sub note = (Ok r, db') ->
  exists t,
    run fresh_db calls = Some t /\
    map row_id (rows t) = first_ids (List.length (rows t)) /\
    dict_get "id" r = Some (VInt (Z.of_nat (List.length (rows t)) + 1)).
Proof.
  intros Hadd.
  destruct (run_numbering calls (mkTable [] 0) eq_refl eq_refl)
    as (t & Erun & Hids & Hseq).
  unfold fresh_db in *. rewrite Erun in Hadd.
  apply add_expense_ok_inv in Hadd. destruct Hadd as (t0 & E & -> & _).
  injection E as <-.
  exists t. split; [exact Erun|]. split; [exact Hids|].
  simpl. do 2 f_equal. unfold high_water.
  rewrite (max_first_ids _ Hids). lia.
Qed.

(** X9: the parameters always fit the placeholders.  For no arguments and
    under no faults does any of the three tools raise a binding error. *)
Theorem tools_never_fail_to_bind (f : Faults) (db : Database R)
    (d : string) (a : R) (c : string) (sub note : option string)
    (start_date end_date : string) (category : option string) :
  fst (add_expense f db d a c sub note) <> Err BindError /\
  fst (list_expenses f db start_date end_date) <> Err BindError /\
  fst (summarize f db start_date end_date category) <> Err BindError.
Proof.
  rewrite add_expense_eq, list_expenses_eq, summarize_eq.
  destruct (connect_fails f); [repeat split; discriminate|].
  destruct (execute_fails f); [repeat split; discriminate|].
  destruct db as [t|]; [|repeat split; discriminate].
  repeat split; try discriminate.
  destruct (MAX_ROWID <=? high_water t); [discriminate|].
  destruct (amount_is_nan a); [discriminate|].
  destruct (commit_fails f); discriminate.
Qed.
End Numbering.

(** ** Ranges *)

Section Ranges.
Context {R : Type} `{Amount R}.

Lemma between_widen (s e s' e' x : string) :
  String.leb s' s = true -> String.leb e e' = true ->
  between s e x = true -> between s' e' x = true.
Proof.
  unfold between. intros Hs He Hx.
  apply andb_true_iff in Hx. destruct Hx as [H1 H2].
  apply andb_true_iff. split; eapply string_leb_trans; eassumption.
Qed.

Lemma in_range_narrow (t : Table R) (s e s' e' : string) :
  String.leb s' s = true -> String.leb e e' = true ->
  in_range s e t =
    filter (fun r => between s e (row_date r)) (in_range s' e' t).
Proof.
  intros Hs He. unfold in_range. rewrite <- filter_filter_andb.
  apply filter_ext. intros r.
  destruct (between s e (row_date r)) eqn:E.
  - now rewrite (between_widen _ _ _ _ _ Hs He E).
  - symmetry. apply andb_false_r.
Qed.

Lemma filter_shorter {A} (q : A -> bool) (l : list A) :
  (List.length (filter q l) <= List.length l)%nat.
Proof.
  induction l as [|x l IH]; simpl; [lia|].
  destruct (q x); simpl; lia.
Qed.

(** X10: a wider range lists no less.  When [start' <= start] and
    [end <= end'], every row of the listing over [[start, end]] is in the
    listing over [[start', end']], which is at least as long. *)
Theorem wider_range_lists_more (f : Faults) (t : Table R)
    (start_date end_date start_date' end_date' : string) :
  connect_fails f = false ->
  execute_fails f = false ->
  String.leb start_date' start_date = true ->
  String.leb end_date end_date' = true ->
  exists narrow wide,
    list_expenses f (Some t) start_date end_date = (Ok narrow, Some t) /\
    list_expenses f (Some t) start_date' end_date' = (Ok wide, Some t) /\
    incl narrow wide /\
    (List.length narrow <= List.length wide)%nat.
Proof.
  intros Hc He Hs Hee. rewrite !list_expenses_eq, Hc, He.
  do 2 eexists. split; [reflexivity|]. split; [reflexivity|].
  rewrite (in_range_narrow t _ _ _ _ Hs Hee). split.
  - intros m Hm. apply in_map_iff in Hm. destruct Hm as (r & <- & Hr).
    apply in_map. apply sort_by_In in Hr. apply sort_by_In.
    apply filter_In in Hr. tauto.
  - rewrite !length_map, !sort_by_length. apply filter_shorter.
Qed.

Lemma between_point (d x : string) : between d d x = String.eqb x d.
Proof.
  unfold between. destruct (String.eqb x d) eqn:E.
  - apply String.eqb_eq in E. subst. now rewrite string_leb_refl.
  - apply andb_false_iff.
    destruct (String.leb d x) eqn:E1; [|now left].
    destruct (String.leb x d) eqn:E2; [|now right].
    apply String.eqb_neq in E. exfalso. apply E.
    now apply String.leb_antisym.
Qed.

(** X11: a range of one day.  With the same string as start and end, the
    listing holds exactly the rows whose stored date is that very string,
    each as often as the table holds it. *)
Theorem point_range_lists_the_day (f : Faults) (t : Table R) (d : string) :
  connect_fails f = false ->
  execute_fails f = false ->
  exists listing,
    list_expenses f (Some t) d d = (Ok listing, Some t) /\
    Permutation listing
      (map expense_dict
         (filter (fun r => String.eqb (row_date r) d) (rows t))) /\
    forall m, In m listing -> dict_get "date" m = Some (VText d).
Proof.
  intros Hc He. rewrite list_expenses_eq, Hc, He.
  eexists. split; [reflexivity|].
  assert (E : in_range d d t =
              filter (fun r => String.eqb (row_date r) d) (rows t)).
  { unfold in_range. apply filter_ext. intros r. apply between_point. }
  rewrite E. split.
  - apply Permutation_map, Permutation_sym, sort_by_perm.
  - intros m Hm. apply in_map_iff in Hm. destruct Hm as (r & <- & Hr).
    apply sort_by_In, filter_In in Hr. destruct Hr as [_ Hr].
    apply String.eqb_eq in Hr. rewrite expense_dict_eq. simpl.
    now rewrite Hr.
Qed.

Lemma compare_append_gt (e x : string) :
  x <> "" -> String.compare (String.append e x) e = Gt.
Proof.
  intros Hx. induction e as [|a e IH]; simpl.
  - destruct x; [congruence|reflexivity].
  - assert (Ea : Ascii.compare a a = Eq)
      by (unfold Ascii.compare; apply N.compare_refl).
    now rewrite Ea.
Qed.

(** X12: the end of a range is a string, not a day.  A stored row whose
    date is the end date followed by anything more, a time of day say, lies
    after the end: the listing leaves it out, and no listed row carries
    such a date. *)
Theorem dates_past_the_end_string_unlisted (f : Faults) (t : Table R)
    (db' : Database R) (start_date end_date suffix : string)
    (listing : list (Mapping R)) (r : Expense R) :
  suffix <> "" ->
  list_expenses f (Some t) start_date end_date = (Ok listing, db') ->
  In r (rows t) ->
  row_date r = String.append end_date suffix ->
  ~ In (expense_dict r) listing /\
  Forall
    (fun m => dict_get "date" m <>
              Some (VText (String.append end_date suffix)))
    listing.
Proof.
  intros Hsuf Hlist _ Hdate. rewrite list_expenses_eq in Hlist.
  destruct (connect_fails f); [discriminate|].
  destruct (execute_fails f); [discriminate|].
  injection Hlist as <- _.
  assert (Hall : forall x,
             In x (sort_by date_desc (in_range start_date end_date t)) ->
             row_date x <> String.append end_date suffix).
  { intros x Hx E. apply sort_by_In, filter_In in Hx.
    destruct Hx as [_ Hx]. rewrite E in Hx. unfold between in Hx.
    apply andb_true_iff in Hx. destruct Hx as [_ Hx].
    unfold String.leb in Hx.
    now rewrite (compare_append_gt end_date suffix Hsuf) in Hx. }
  split.
  - intros Hin. apply in_map_iff in Hin. destruct Hin as (x & E & Hx).
    apply expense_dict_inj in E. subst x. now apply (Hall r).
  - apply Forall_forall. intros m Hm.
    apply in_map_iff in Hm. destruct Hm as (x & <- & Hx).
    rewrite expense_dict_eq. simpl. intros E. injection E as E.
    now apply (Hall x).
Qed.

Lemma StronglySorted_map {A B} (g : A -> B) (P : A -> A -> Prop)
    (Q : B -> B -> Prop) (l : list A) :
  (forall x y, P x y -> Q (g x) (g y)) ->
  StronglySorted P l -> StronglySorted Q (map g l).
Proof.
  intros HPQ. induction 1 as [|x l Hl IH Hx]; simpl; constructor.
  - exact IH.
  - apply Forall_map. eapply Forall_impl; [|exact Hx].
    intros y. apply HPQ.
Qed.

(** X13: latest first, throughout.  In a listing every row is dated no
    earlier than every row that comes after it, not only the next one; the
    first row carries the latest date of the range. *)
Theorem listing_latest_first (f : Faults) (db db' : Database R)
    (start_date end_date : string) (listing : list (Mapping R)) :
  list_expenses f db start_date end_date = (Ok listing, db') ->
  StronglySorted date_not_before listing.
Proof.
  intros Hlist. rewrite list_expenses_eq in Hlist.
  destruct (connect_fails f); [discriminate|].
  destruct (execute_fails f); [discriminate|].
  destruct db as [t|]; [|discriminate].
  injection Hlist as <- _.
  apply StronglySorted_map with (P := before date_desc).
  - intros x y Hxy. exact Hxy.
  - apply Sorted_StronglySorted.
    + intros x y z Hxy Hyz. unfold before, date_desc in *.
      eapply string_leb_trans; eassumption.
    + apply sort_by_sorted. exact date_desc_total.
Qed.

(** X14: the shape of a listed row.  Every dict of a listing has the six
    keys id, date, amount, category, subcategory, note, in that order; id
    is an integer, date and category are texts, amount is a number, none
    of them null; subcategory and note are a text or null; and it is the
    dict of a row the table holds. *)
Theorem listing_row_shape (f : Faults) (db db' : Database R)
    (start_date end_date : string) (listing : list (Mapping R))
    (m : Mapping R) :
  list_expenses f db start_date end_date = (Ok listing, db') ->
  In m listing ->
  exists t n d a c sub note,
    db = Some t /\
    In (mkExpense n d a c sub note) (rows t) /\
    m = inserted_dict n d a c sub note /\
    map fst m = expense_columns.
Proof.
  intros Hlist Hm. rewrite list_expenses_eq in Hlist.
  destruct (connect_fails f); [discriminate|].
  destruct (execute_fails f); [discriminate|].
  destruct db as [t|]; [|discriminate].
  injection Hlist as <- _.
  apply in_map_iff in Hm. destruct Hm as (r & <- & Hr).
  apply sort_by_In, filter_In in Hr. destruct Hr as [Hr _].
  destruct r as [n d a c sub note].
  exists t, n, d, a, c, sub, note. repeat split. exact Hr.
Qed.
End Ranges.

(** ** Summaries *)

Section Summaries.
Context {R : Type} `{Amount R}.

Lemma NoDup_constant {A} (c : A) (l : list A) :
  NoDup l -> (forall x, In x l -> x = c) -> l = [] \/ l = [c].
Proof.
  intros Hnd Hall. destruct l as [|x [|y l]].
  - now left.
  - right. f_equal. apply Hall. now left.
  - exfalso. inversion Hnd as [|? ? Hx _]; subst. apply Hx.
    rewrite (Hall x), (Hall y); simpl; auto.
Qed.

Lemma group_of_idem (c : string) (rs : list (Expense R)) :
  group_of c (group_of c rs) = group_of c rs.
Proof.
  unfold group_of. apply forallb_filter_id, forallb_filter.
Qed.

Lemma group_of_nonempty (c : string) (rs : list (Expense R)) :
  group_of c rs <> [] <-> In c (group_keys rs).
Proof.
  rewrite group_keys_In. unfold group_of. split.
  - destruct (filter _ rs) as [|r l] eqn:E; [congruence|]. intros _.
    assert (Hr : In r (filter (fun e => String.eqb (row_category e) c) rs))
      by (rewrite E; now left).
    apply filter_In in Hr. destruct Hr as [Hr Hc].
    exists r. split; [exact Hr|]. now apply String.eqb_eq.
  - intros (r & Hr & <-) E.
    assert (Hin : In r (filter (fun e => String.eqb (row_category e)
                                           (row_category r)) rs)).
    { apply filter_In. split; [exact Hr|]. apply String.eqb_refl. }
    now rewrite E in Hin.
Qed.

(** The groups of rows that all have category [c]. *)
Lemma group_keys_single (c : string) (rs : list (Expense R)) :
  group_keys (group_of c rs) =
    match group_of c rs with [] => [] | _ :: _ => [c] end.
Proof.
  assert (Hiff : group_of c rs <> [] <-> In c (group_keys (group_of c rs))).
  { rewrite <- group_of_nonempty, group_of_idem. tauto. }
  destruct (NoDup_constant c (group_keys (group_of c rs)))
    as [E | E].
  - apply group_keys_NoDup.
  - intros x Hx. apply group_keys_In in Hx. destruct Hx as (r & Hr & <-).
    apply filter_In in Hr. destruct Hr as [_ Hr].
    now apply String.eqb_eq in Hr.
  - rewrite E in *. destruct Hiff as [Hi _].
    destruct (group_of c rs); [reflexivity|].
    exfalso. apply Hi. discriminate.
  - rewrite E in *. destruct Hiff as [_ Hi].
    destruct (group_of c rs); [|reflexivity].
    exfalso. apply Hi; [now left|reflexivity].
Qed.

Lemma category_summary_aggregate (c : string) (rs : list (Expense R)) :
  map group_dict
    (match group_of c rs with [] => [] | _ :: _ => [aggregate rs c] end) =
  category_summary c (group_of c rs).
Proof.
  unfold category_summary. destruct (group_of c rs) eqn:E; [reflexivity|].
  simpl. rewrite group_dict_eq. unfold aggregate. simpl. now rewrite E.
Qed.

Lemma summary_where_category (s e c : string) (t : Table R) :
  c <> "" ->
  filter (summary_where s e (Some c)) (rows t) = group_of c (in_range s e t).
Proof.
  intros Hne. unfold group_of, in_range. rewrite <- filter_filter_andb.
  apply filter_ext. intros r. unfold summary_where.
  assert (Et : truthy (Some c) = true).
  { simpl. apply negb_true_iff. now apply String.eqb_neq. }
  now rewrite Et.
Qed.

(** What [summarize] returns for a category, in closed form. *)
Lemma summarize_category_value (f : Faults) (t : Table R) (s e c : string) :
  c <> "" ->
  connect_fails f = false ->
  execute_fails f = false ->
  summarize f (Some t) s e (Some c) =
    (Ok (category_summary c (group_of c (in_range s e t))), Some t).
Proof.
  intros Hne Hc He. rewrite summarize_eq, Hc, He.
  rewrite (summary_where_category s e c t Hne).
  set (rs := in_range s e t).
  unfold group_by_category. rewrite group_keys_single.
  pose proof (category_summary_aggregate c (group_of c rs)) as Ecs.
  rewrite group_of_idem in Ecs. rewrite <- Ecs.
  destruct (group_of c rs); reflexivity.
Qed.


Lemma restricted_groups (c : string) (rs : list (Expense R)) :
  filter (fun g => String.eqb (g_category g) c)
    (sort_by total_desc (group_by_category rs)) =
  match group_of c rs with [] => [] | _ :: _ => [aggregate rs c] end.
Proof.
  assert (P : Permutation
                (filter (fun k => String.eqb k c) (group_keys rs))
                (filter (fun k => String.eqb k c) (group_keys rs)))
    by apply Permutation_refl.
  assert (Ek : filter (fun k => String.eqb k c) (group_keys rs) =
               match group_of c rs with [] => [] | _ :: _ => [c] end).
  { destruct (NoDup_constant c
                (filter (fun k => String.eqb k c) (group_keys rs)))
      as [E | E].
    - apply NoDup_filter, group_keys_NoDup.
    - intros x Hx. apply filter_In in Hx. destruct Hx as [_ Hx].
      now apply String.eqb_eq in Hx.
    - rewrite E. destruct (group_of c rs) as [|r l] eqn:Eg; [reflexivity|].
      exfalso. assert (Hne : group_of c rs <> []) by (rewrite Eg; discriminate).
      apply group_of_nonempty in Hne.
      assert (Hin : In c (filter (fun k => String.eqb k c) (group_keys rs))).
      { apply filter_In. split; [exact Hne|apply String.eqb_refl]. }
      now rewrite E in Hin.
    - rewrite E. destruct (group_of c rs) as [|r l] eqn:Eg; [|reflexivity].
      exfalso. assert (Hin : In c (filter (fun k => String.eqb k c)
                                     (group_keys rs)))
        by (rewrite E; now left).
      apply filter_In in Hin. destruct Hin as [Hin _].
      apply group_of_nonempty in Hin. now apply Hin. }
  clear P.
  assert (Q : Permutation
                (match group_of c rs with
                 | [] => []
                 | _ :: _ => [aggregate rs c]
                 end)
                (filter (fun g => String.eqb (g_category g) c)
                   (sort_by total_desc (group_by_category rs)))).
  { eapply Permutation_trans;
      [|apply Permutation_filter_compat, sort_by_perm].
    unfold group_by_category. rewrite filter_map_swap. simpl.
    rewrite Ek. destruct (group_of c rs); apply Permutation_refl. }
  destruct (group_of c rs).
  - apply Permutation_nil in Q. exact Q.
  - apply Permutation_length_1_inv in Q. exact Q.
Qed.

(** X16: asking for one category selects from the full summary.  For a
    non-empty category [c], what [summarize] returns with [c] is what it
    returns without a category, cut down to the mapping whose category is
    [c]. *)
Theorem category_summary_is_restriction (f : Faults) (t : Table R)
    (start_date end_date c : string) :
  c <> "" ->
  connect_fails f = false ->
  execute_fails f = false ->
  exists full,
    summarize f (Some t) start_date end_date None = (Ok full, Some t) /\
    summarize f (Some t) start_date end_date (Some c) =
      (Ok (filter (has_category c) full), Some t).
Proof.
  intros Hne Hc He.
  rewrite (summarize_category_value f t _ _ c Hne Hc He).
  rewrite summarize_eq, Hc, He.
  eexists. split; [reflexivity|]. do 2 f_equal.
  assert (Ew : filter (summary_where start_date end_date None) (rows t)
               = in_range start_date end_date t).
  { unfold in_range. apply filter_ext. intros r.
    unfold summary_where. apply andb_true_r. }
  rewrite Ew, filter_map_swap.
  rewrite (filter_ext _ (fun g => String.eqb (g_category g) c))
    by reflexivity.
  rewrite restricted_groups. symmetry. apply category_summary_aggregate.
Qed.

Lemma sum_indicator (c : string) (keys : list string) :
  NoDup keys -> In c keys ->
  fold_right Z.add 0
    (map (fun k => if String.eqb c k then 1 else 0) keys) = 1.
Proof.
  induction 1 as [|k keys Hk Hnd IH]; simpl; [tauto|].
  intros [-> | Hin].
  - rewrite String.eqb_refl.
    assert (E0 : fold_right Z.add 0
                   (map (fun k => if String.eqb c k then 1 else 0) keys) = 0).
    { clear IH Hnd. induction keys as [|k keys IHk]; simpl; [reflexivity|].
      destruct (String.eqb c k) eqn:E.
      - apply String.eqb_eq in E. subst. exfalso. apply Hk. now left.
      - rewrite IHk; [reflexivity|]. intros Hin. apply Hk. now right. }
    rewrite E0. reflexivity.
  - destruct (String.eqb c k) eqn:E.
    + apply String.eqb_eq in E. subst. tauto.
    + now rewrite IH.
Qed.

Lemma group_lengths_cons (r : Expense R) (rs : list (Expense R))
    (keys : list string) :
  fold_right Z.add 0
    (map (fun k => Z.of_nat (List.length (group_of k (r :: rs)))) keys) =
  fold_right Z.add 0
    (map (fun k => Z.of_nat (List.length (group_of k rs))) keys) +
  fold_right Z.add 0
    (map (fun k => if String.eqb (row_category r) k then 1 else 0) keys).
Proof.
  induction keys as [|k keys IH]; [reflexivity|].
  cbn [map fold_right]. rewrite IH. unfold group_of. cbn [filter].
  destruct (String.eqb (row_category r) k); cbn [List.length]; lia.
Qed.

Lemma group_lengths_add_up (rs : list (Expense R)) (keys : list string) :
  NoDup keys ->
  (forall r, In r rs -> In (row_category r) keys) ->
  fold_right Z.add 0
    (map (fun k => Z.of_nat (List.length (group_of k rs))) keys) =
  Z.of_nat (List.length rs).
Proof.
  intros Hnd. induction rs as [|r rs IH]; intros Hall.
  - simpl. clear. induction keys as [|k keys IH]; simpl; [reflexivity|].
    now rewrite IH.
  - rewrite group_lengths_cons, IH, sum_indicator.
    + simpl List.length. lia.
    + exact Hnd.
    + apply Hall. now left.
    + intros x Hx. apply Hall. now right.
Qed.

Lemma sum_permutation (l l' : list Z) :
  Permutation l l' -> fold_right Z.add 0 l = fold_right Z.add 0 l'.
Proof.
  induction 1; simpl; lia.
Qed.

(** X17: the groups split the rows of the range.  The counts of the
    summary without a category add up to the length of the listing over the
    same range, and every count is at least 1: each listed row is counted
    in exactly one group and no group is empty. *)
Theorem summary_counts_add_up (f : Faults) (t : Table R)
    (start_date end_date : string) :
  connect_fails f = false ->
  execute_fails f = false ->
  exists summary listing,
    summarize f (Some t) start_date end_date None = (Ok summary, Some t) /\
    list_expenses f (Some t) start_date end_date = (Ok listing, Some t) /\
    fold_right Z.add 0 (map count_of summary) =
      Z.of_nat (List.length listing) /\
    forall m, In m summary -> 1 <= count_of m.
Proof.
  intros Hc He. rewrite summarize_eq, list_expenses_eq, Hc, He.
  do 2 eexists. split; [reflexivity|]. split; [reflexivity|].
  assert (Ew : filter (summary_where start_date end_date None) (rows t)
               = in_range start_date end_date t).
  { unfold in_range. apply filter_ext. intros r.
    unfold summary_where. apply andb_true_r. }
  rewrite Ew. set (rs := in_range start_date end_date t). split.
  - rewrite map_map, length_map, sort_by_length.
    rewrite (map_ext _ g_count) by reflexivity.
    rewrite (sum_permutation _ (map g_count (group_by_category rs)))
      by (apply Permutation_map, Permutation_sym, sort_by_perm).
    unfold group_by_category. rewrite map_map. simpl.
    apply group_lengths_add_up; [apply group_keys_NoDup|].
    intros r Hr. apply group_keys_In. now exists r.
  - intros m Hm. apply in_map_iff in Hm. destruct Hm as (g & <- & Hg).
    apply sort_by_In in Hg. unfold group_by_category in Hg.
    apply in_map_iff in Hg. destruct Hg as (k & <- & Hk).
    change (count_of (group_dict (aggregate rs k)))
      with (Z.of_nat (List.length (group_of k rs))).
    apply group_of_nonempty in Hk.
    destruct (group_of k rs); [congruence|]. simpl List.length. lia.
Qed.

End Summaries.
(** * Runs on the three-row ledger *)


(** The three-row ledger of the specification: the January listing holds
    the first two rows, latest first, and not the third. *)
Example january_listing :
  fst (list_expenses no_faults ledger3 "2024-01-01" "2024-01-31") =
    Ok [[("id", VInt 2); ("date", VText "2024-01-15"); ("amount", VReal 20%Q);
         ("category", VText "Food"); ("subcategory", VNull); ("note", VNull)];
        [("id", VInt 1); ("date", VText "2024-01-01"); ("amount", VReal 10%Q);
         ("category", VText "Food"); ("subcategory", VNull); ("note", VNull)]].
Proof. reflexivity. Qed.

Example summary_of_the_year :
  fst (summarize no_faults ledger3 "2024-01-01" "2024-12-31" None) =
    Ok [[("category", VText "Food"); ("total_amount", VReal 30%Q);
         ("count", VInt 2)];
        [("category", VText "Travel"); ("total_amount", VReal 5%Q);
         ("count", VInt 1)]].
Proof. reflexivity. Qed.

Example summary_of_travel :
  fst (summarize no_faults ledger3 "2024-01-01" "2024-12-31" (Some "Travel")) =
    Ok [[("category", VText "Travel"); ("total_amount", VReal 5%Q);
         ("count", VInt 1)]].
Proof. reflexivity. Qed.

(** A commit that fails leaves the ledger as it was. *)
Example failed_commit_rolls_back :
  add_expense commit_fault ledger3 "2024-03-01" 7%Q "Bills" None None =
    (Err CommitError, ledger3).
Proof. reflexivity. Qed.

Lemma group_category_In {R : Type} `{Amount R} (rs : list (Expense R))
    (g : Group R) :
  In g (sort_by total_desc (group_by_category rs)) ->
  exists r, In r rs /\ row_category r = g_category g.
Proof.
  intros Hg. apply group_keys_In.
  apply (Permutation_in _ (sorted_groups_categories rs)).
  now apply in_map.
Qed.

(** C10: called with the empty string as category, [summarize] leaves the
    category predicate out.  It returns what it returns without a category,
    and that is the grouped summary of the whole range: one mapping per
    distinct category among all rows of the range, each with the
    accumulated total and the number of the rows of its category.  It is
    not the summary of the rows whose category is the empty string: the two
    differ as soon as the range holds a row of another category. *)
Theorem summarize_empty_string_is_absent {R : Type} `{Amount R}
    (f : Faults) (t : Table R) (start_date end_date : string) :
  connect_fails f = false ->
  execute_fails f = false ->
  (forall f' db',
      summarize f' db' start_date end_date (Some "") =
      summarize f' db' start_date end_date None) /\
  exists groups,
    summarize f (Some t) start_date end_date (Some "") =
      (Ok (map group_dict groups), Some t) /\
    NoDup (map g_category groups) /\
    (forall c,
        In c (map g_category groups) <->
        exists r, In r (in_range start_date end_date t) /\
                  row_category r = c) /\
    (forall g,
        In g groups ->
        let matching :=
          filter (fun r => String.eqb (row_category r) (g_category g))
            (in_range start_date end_date t) in
        g_total g = fold_left amount_add (map row_amount matching)
                      amount_zero /\
        g_count g = Z.of_nat (List.length matching)) /\
    ((exists r, In r (in_range start_date end_date t) /\
                row_category r <> "") ->
     map group_dict groups <>
       filter_then_group start_date end_date "" t).
Proof.
  intros Hc He. split; [reflexivity|].
  rewrite summarize_eq, Hc, He.
  assert (Ew : filter (summary_where start_date end_date (Some ""))
                 (rows t) = in_range start_date end_date t).
  { unfold in_range. apply filter_ext. intros r.
    unfold summary_where. simpl. apply andb_true_r. }
  rewrite Ew. set (rs := in_range start_date end_date t).
  exists (sort_by total_desc (group_by_category rs)).
  split; [reflexivity|]. split; [|split; [|split]].
  - eapply Permutation_NoDup;
      [apply Permutation_sym, sorted_groups_categories|].
    apply group_keys_NoDup.
  - intros c. rewrite <- group_keys_In. split; apply Permutation_in;
      [|apply Permutation_sym]; apply sorted_groups_categories.
  - intros g Hg. apply sort_by_In in Hg.
    unfold group_by_category in Hg. apply in_map_iff in Hg.
    destruct Hg as (c & <- & _). split; reflexivity.
  - intros (r & Hr & Hcat) E.
    assert (Hc' : In (row_category r)
                    (map g_category
                       (sort_by total_desc (group_by_category rs)))).
    { apply (Permutation_in _
               (Permutation_sym (sorted_groups_categories rs))).
      apply group_keys_In. now exists r. }
    apply in_map_iff in Hc'. destruct Hc' as (g & Eg & Hg).
    assert (Hd : In (group_dict g) (filter_then_group start_date end_date
                                      "" t)).
    { rewrite <- E. now apply in_map. }
    unfold filter_then_group in Hd. apply in_map_iff in Hd.
    destruct Hd as (g' & Ed & Hg').
    rewrite !group_dict_eq in Ed. injection Ed as Ecat _ _.
    apply group_category_In in Hg'. destruct Hg' as (r' & Hr' & Er').
    apply filter_In in Hr'. destruct Hr' as [_ Hr'].
    apply String.eqb_eq in Hr'. congruence.
Qed.

(** On the ledger with a row of category [""], the summary for [""] has
    the three groups of the year; restricted to category [""] it would have
    one. *)
Example summary_of_blank_category :
  fst (summarize no_faults ledger_blank "2024-01-01" "2024-12-31" (Some "")) =
    Ok [[("category", VText "Food"); ("total_amount", VReal 10%Q);
         ("count", VInt 1)];
        [("category", VText "Travel"); ("total_amount", VReal 5%Q);
         ("count", VInt 1)];
        [("category", VText ""); ("total_amount", VReal 4%Q);
         ("count", VInt 1)]] /\
  filter_then_group "2024-01-01" "2024-12-31" "" (table_of ledger_blank) =
    [[("category", VText ""); ("total_amount", VReal 4%Q);
      ("count", VInt 1)]].
Proof. split; reflexivity. Qed.

Lemma summarize_empty_string_is_absent_witness :
  (forall f' (db' : Database Q),
      summarize f' db' "2024-01-01" "2024-12-31" (Some "") =
      summarize f' db' "2024-01-01" "2024-12-31" None) /\
  exists groups,
    summarize no_faults (Some (table_of ledger_blank))
      "2024-01-01" "2024-12-31" (Some "") =
      (Ok (map group_dict groups), Some (table_of ledger_blank)) /\
    NoDup (map g_category groups) /\
    (forall c,
        In c (map g_category groups) <->
        exists r,
          In r (in_range "2024-01-01" "2024-12-31" (table_of ledger_blank)) /\
          row_category r = c) /\
    (forall g,
        In g groups ->
        let matching :=
          filter (fun r => String.eqb (row_category r) (g_category g))
            (in_range "2024-01-01" "2024-12-31" (table_of ledger_blank)) in
        g_total g = fold_left amount_add (map row_amount matching)
                      amount_zero /\
        g_count g = Z.of_nat (List.length matching)) /\
    ((exists r,
         In r (in_range "2024-01-01" "2024-12-31" (table_of ledger_blank)) /\
         row_category r <> "") ->
     map group_dict groups <>
       filter_then_group "2024-01-01" "2024-12-31" "" (table_of ledger_blank)).
Proof.
  exact (summarize_empty_string_is_absent no_faults (table_of ledger_blank)
           "2024-01-01" "2024-12-31" eq_refl eq_refl).
Defined.

(** A NaN amount is stored as NULL, and amount REAL NOT NULL refuses it. *)
Example nan_amount_refused :
  add_expense no_faults fresh_db "2024-01-15" NaN "Food" None None =
    (Err IntegrityError, fresh_db).
Proof. reflexivity. Qed.

(** C3, as stated, fails at the empty string: on the three-row ledger
    [summarize] with category [""] returns two rows, while restricting to
    the rows of category [""] and then grouping returns none. *)
Lemma summarize_empty_category_not_filtered :
  exists listing,
    summarize no_faults (Some ledger3_table) "2024-01-01" "2024-12-31"
      (Some "") = (Ok listing, Some ledger3_table) /\
    listing <> filter_then_group "2024-01-01" "2024-12-31" "" ledger3_table /\
    (1 < List.length listing)%nat.
Proof.
  eexists. split; [reflexivity|]. split.
  - vm_compute. discriminate.
  - vm_compute. lia.
Qed.

(** The run of the specification: 42.50 for Food on 2024-01-15 into the
    three-row ledger, further calls, then the January listing. *)
Lemma insert_then_list_witness :
  exists n listing,
    dict_get "id" [("status", VText "success"); ("id", VInt 4)]
      = Some (@VInt Q n) /\
    list_expenses no_faults
      (run (add "2024-01-15" 42.5 "Food" ledger3) history3)
      "2024-01-01" "2024-01-31"
      = (Ok listing, run (add "2024-01-15" 42.5 "Food" ledger3) history3) /\
    filter (has_id n) listing =
      [[("id", VInt n); ("date", VText "2024-01-15"); ("amount", VReal 42.5%Q);
        ("category", VText "Food"); ("subcategory", VNull); ("note", VNull)]].
Proof.
  exact (insert_then_list no_faults no_faults ledger3
           (add "2024-01-15" 42.5 "Food" ledger3)
           "2024-01-15" 42.5%Q "Food"
           [("status", VText "success"); ("id", VInt 4)]
           history3 "2024-01-01" "2024-01-31"
           eq_refl eq_refl eq_refl eq_refl).
Defined.


Lemma summarize_category_witness :
  summarize no_faults (Some ledger3_table) "2024-01-01" "2024-12-31"
    (Some "Travel") =
    (Ok (filter_then_group "2024-01-01" "2024-12-31" "Travel" ledger3_table),
     Some ledger3_table) /\
  (List.length
     (filter_then_group "2024-01-01" "2024-12-31" "Travel" ledger3_table)
   <= 1)%nat.
Proof.
  apply (summarize_category_filters_then_groups no_faults ledger3_table
           "2024-01-01" "2024-12-31" "Travel").
  - discriminate.
  - reflexivity.
  - reflexivity.
Defined.

Lemma list_expenses_range_exact_witness :
  exists listing,
    list_expenses no_faults (Some ledger3_table) "2024-01-01" "2024-01-31" =
      (Ok listing, Some ledger3_table) /\
    Permutation listing
      (map expense_dict
         (filter (fun r => String.leb "2024-01-01" (row_date r) &&
                           String.leb (row_date r) "2024-01-31")
            (rows ledger3_table))) /\
    forall r,
      In (expense_dict r) listing <->
      In r (rows ledger3_table) /\
      String.leb "2024-01-01" (row_date r) = true /\
      String.leb (row_date r) "2024-01-31" = true.
Proof.
  apply (list_expenses_range_exact no_faults ledger3_table
           "2024-01-01" "2024-01-31"); reflexivity.
Defined.

Lemma list_expenses_sorted_witness :
  exists listing,
    list_expenses no_faults (Some ledger3_table) "2024-01-01" "2024-12-31" =
      (Ok listing, Some ledger3_table) /\
    Sorted date_not_before listing.
Proof.
  apply (list_expenses_sorted no_faults ledger3_table
           "2024-01-01" "2024-12-31"); reflexivity.
Defined.

Lemma no_match_empty_sequence_witness :
  list_expenses no_faults (Some ledger3_table) "2025-01-01" "2025-12-31" =
    (Ok [], Some ledger3_table) /\
  summarize no_faults (Some ledger3_table) "2025-01-01" "2025-12-31"
    (Some "Food") = (Ok [], Some ledger3_table).
Proof.
  apply (no_match_empty_sequence no_faults ledger3_table
           "2025-01-01" "2025-12-31" (Some "Food")).
  - reflexivity.
  - reflexivity.
  - intros r Hr. simpl in Hr.
    destruct Hr as [<- | [<- | [<- | []]]]; reflexivity.
Defined.

Lemma init_db_idempotent_witness :
  init_db_times 2 no_faults (@None (Table Q)) =
    snd (init_db no_faults None) /\
  table_shape (init_db_times 2 no_faults (@None (Table Q))) =
    table_shape (snd (init_db no_faults (@None (Table Q)))) /\
  table_shape (snd (init_db no_faults (@None (Table Q)))) =
    Some expenses_schema /\
  init_db no_faults (snd (init_db no_faults (@None (Table Q)))) =
    (Ok tt, snd (init_db no_faults None)) /\
  init_db no_faults (Some ledger3_table) = (Ok tt, Some ledger3_table) /\
  (forall f', snd (init_db f' (Some ledger3_table)) = Some ledger3_table).
Proof.
  apply (init_db_idempotent no_faults (@None (Table Q)) ledger3_table 1);
    reflexivity.
Defined.

Lemma ids_unique_increasing_rows_kept_witness :
  exists n1 n2 t t3 added,
    dict_get "id" [("status", VText "success"); ("id", VInt 4)]
      = Some (@VInt Q n1) /\
    dict_get "id" [("status", VText "success"); ("id", VInt 6)]
      = Some (@VInt Q n2) /\
    n1 < n2 /\
    ledger3 = Some t /\
    snd (add_expense no_faults
           (run (add "2024-02-10" 1 "Other" ledger3) history3)
           "2024-04-01" 2%Q "Food" None (Some "lunch")) = Some t3 /\
    rows t3 =
      rows t ++ mkExpense n1 "2024-02-10" 1%Q "Other" None None :: added ++
      [mkExpense n2 "2024-04-01" 2%Q "Food" None (Some "lunch")] /\
    NoDup (map row_id (rows t3)).
Proof.
  apply (ids_unique_increasing_rows_kept ledger3
           (add "2024-02-10" 1 "Other" ledger3)
           (snd (add_expense no_faults
                   (run (add "2024-02-10" 1 "Other" ledger3) history3)
                   "2024-04-01" 2%Q "Food" None (Some "lunch")))
           history3 no_faults no_faults).
  - vm_compute. repeat constructor; simpl; intuition discriminate.
  - reflexivity.
  - reflexivity.
Defined.

(** * Runs of the further properties *)

Lemma optional_fields_round_trip_witness :
  exists n listing,
    dict_get "id" receipt4 = Some (VInt n) /\
    list_expenses no_faults ledger4 "2024-01-01" "2024-01-31" =
      (Ok listing, ledger4) /\
    filter (has_id n) listing =
      [inserted_dict n "2024-01-20" 3%Q "Food" (Some "lunch") None] /\
    dict_get "subcategory"
      (inserted_dict n "2024-01-20" 3%Q "Food" (Some "lunch") None) =
      Some (VText "lunch") /\
    dict_get "note"
      (inserted_dict n "2024-01-20" 3%Q "Food" (Some "lunch") None) =
      Some VNull.
Proof.
  exact (optional_fields_round_trip no_faults no_faults ledger3 ledger4
           "2024-01-20" 3%Q "Food" (Some "lunch") None receipt4
           "2024-01-01" "2024-01-31" eq_refl eq_refl eq_refl eq_refl).
Defined.

Lemma insert_outside_range_unseen_witness :
  fst (list_expenses no_faults ledger4 "2024-02-01" "2024-12-31") =
    fst (list_expenses no_faults ledger3 "2024-02-01" "2024-12-31") /\
  fst (summarize no_faults ledger4 "2024-02-01" "2024-12-31" (Some "Food")) =
    fst (summarize no_faults ledger3 "2024-02-01" "2024-12-31" (Some "Food")).
Proof.
  exact (insert_outside_range_unseen no_faults no_faults ledger3 ledger4
           "2024-01-20" 3%Q "Food" (Some "lunch") None receipt4
           "2024-02-01" "2024-12-31" (Some "Food") eq_refl eq_refl).
Defined.

Lemma insert_in_range_extends_listing_witness :
  exists n listing',
    dict_get "id" receipt4 = Some (VInt n) /\
    list_expenses no_faults ledger4 "2024-01-01" "2024-01-31" =
      (Ok listing', ledger4) /\
    Permutation listing'
      (inserted_dict n "2024-01-20" 3%Q "Food" (Some "lunch") None ::
       ledger3_january) /\
    List.length listing' = S (List.length ledger3_january).
Proof.
  exact (insert_in_range_extends_listing no_faults no_faults ledger3 ledger4
           "2024-01-20" 3%Q "Food" (Some "lunch") None receipt4
           "2024-01-01" "2024-01-31" ledger3_january
           eq_refl eq_refl eq_refl).
Defined.

Lemma tools_raise_without_table_witness :
  add_expense no_faults None "2024-01-20" 3%Q "Food" None None =
    (Err NoSuchTable, None) /\
  list_expenses no_faults (@None (Table Q)) "2024-01-01" "2024-01-31" =
    (Err NoSuchTable, None) /\
  summarize no_faults (@None (Table Q)) "2024-01-01" "2024-01-31" None =
    (Err NoSuchTable, None).
Proof.
  exact (tools_raise_without_table no_faults "2024-01-20" 3%Q "Food" None
           None "2024-01-01" "2024-01-31" None eq_refl eq_refl).
Defined.

Lemma init_db_then_tools_witness :
  list_expenses no_faults (@fresh_db QNaN) "2024-01-01" "2024-01-31" =
    (Ok [], fresh_db) /\
  summarize no_faults (@fresh_db QNaN) "2024-01-01" "2024-01-31"
    (Some "Food") = (Ok [], fresh_db) /\
  add_expense no_faults fresh_db "2024-01-20" (Num 3) "Food" None None =
    (Ok [("status", VText "success"); ("id", VInt 1)],
     Some (mkTable [mkExpense 1 "2024-01-20" (Num 3) "Food" None None] 1)) /\
  (forall a' : QNaN,
      amount_is_nan a' = true ->
      add_expense no_faults fresh_db "2024-01-20" a' "Food" None None =
        (Err IntegrityError, fresh_db)).
Proof.
  exact (init_db_then_tools no_faults no_faults fresh_db
           "2024-01-20" (Num 3) "Food" None None
           "2024-01-01" "2024-01-31" (Some "Food")
           eq_refl eq_refl eq_refl eq_refl eq_refl).
Defined.

Lemma returned_id_in_bounds_witness :
  exists n t',
    dict_get "id" receipt4 = Some (VInt n) /\
    1 <= n <= MAX_ROWID /\
    ledger4 = Some t' /\
    In (mkExpense n "2024-01-20" 3%Q "Food" (Some "lunch") None) (rows t').
Proof.
  exact (returned_id_in_bounds no_faults ledger3 ledger4
           "2024-01-20" 3%Q "Food" (Some "lunch") None receipt4 eq_refl).
Defined.

Lemma ids_without_gaps_witness :
  exists t,
    run fresh_db history3 = Some t /\
    map row_id (rows t) = first_ids (List.length (rows t)) /\
    dict_get "id" [("status", VText "success"); ("id", @VInt Q 2)] =
      Some (VInt (Z.of_nat (List.length (rows t)) + 1)).
Proof.
  exact (ids_without_gaps history3 no_faults "2024-03-03" 9%Q "Bills" None
           None [("status", VText "success"); ("id", VInt 2)]
           (snd (add_expense no_faults (run fresh_db history3)
                   "2024-03-03" 9%Q "Bills" None None))
           eq_refl).
Defined.

Lemma wider_range_lists_more_witness :
  exists narrow wide,
    list_expenses no_faults (Some ledger3_table) "2024-01-10" "2024-01-31" =
      (Ok narrow, Some ledger3_table) /\
    list_expenses no_faults (Some ledger3_table) "2024-01-01" "2024-12-31" =
      (Ok wide, Some ledger3_table) /\
    incl narrow wide /\
    (List.length narrow <= List.length wide)%nat.
Proof.
  exact (wider_range_lists_more no_faults ledger3_table
           "2024-01-10" "2024-01-31" "2024-01-01" "2024-12-31"
           eq_refl eq_refl eq_refl eq_refl).
Defined.

Lemma point_range_lists_the_day_witness :
  exists listing,
    list_expenses no_faults (Some ledger3_table) "2024-01-15" "2024-01-15" =
      (Ok listing, Some ledger3_table) /\
    Permutation listing
      (map expense_dict
         (filter (fun r => String.eqb (row_date r) "2024-01-15")
            (rows ledger3_table))) /\
    forall m, In m listing -> dict_get "date" m = Some (VText "2024-01-15").
Proof.
  exact (point_range_lists_the_day no_faults ledger3_table "2024-01-15"
           eq_refl eq_refl).
Defined.

Lemma dates_past_the_end_string_unlisted_witness :
  ~ In (expense_dict (mkExpense 2 "2024-01-31T10:00" 7%Q "Food" None None))
       [inserted_dict 1 "2024-01-31" 6%Q "Food" None None] /\
  Forall
    (fun m => dict_get "date" m <>
              Some (VText (String.append "2024-01-31" "T10:00")))
    [inserted_dict 1 "2024-01-31" 6%Q "Food" None None].
Proof.
  apply (dates_past_the_end_string_unlisted no_faults
           (table_of ledger_times) ledger_times
           "2024-01-01" "2024-01-31" "T10:00"
           [inserted_dict 1 "2024-01-31" 6%Q "Food" None None]
           (mkExpense 2 "2024-01-31T10:00" 7%Q "Food" None None)).
  - discriminate.
  - reflexivity.
  - right. left. reflexivity.
  - reflexivity.
Defined.

Lemma listing_latest_first_witness :
  StronglySorted date_not_before ledger3_january.
Proof.
  exact (listing_latest_first no_faults ledger3 ledger3
           "2024-01-01" "2024-01-31" ledger3_january eq_refl).
Defined.

Lemma listing_row_shape_witness :
  exists t n d a c sub note,
    ledger3 = Some t /\
    In (mkExpense n d a c sub note) (rows t) /\
    inserted_dict 2 "2024-01-15" 20%Q "Food" None None =
      inserted_dict n d a c sub note /\
    map fst (inserted_dict 2 "2024-01-15" 20%Q "Food" None None) =
      expense_columns.
Proof.
  apply (listing_row_shape no_faults ledger3 ledger3
           "2024-01-01" "2024-01-31" ledger3_january).
  - reflexivity.
  - left. reflexivity.
Defined.


Lemma category_summary_is_restriction_witness :
  exists full,
    summarize no_faults (Some ledger3_table) "2024-01-01" "2024-12-31" None =
      (Ok full, Some ledger3_table) /\
    summarize no_faults (Some ledger3_table) "2024-01-01" "2024-12-31"
      (Some "Travel") =
      (Ok (filter (has_category "Travel") full), Some ledger3_table).
Proof.
  apply (category_summary_is_restriction no_faults ledger3_table
           "2024-01-01" "2024-12-31" "Travel").
  - discriminate.
  - reflexivity.
  - reflexivity.
Defined.

Lemma summary_counts_add_up_witness :
  exists summary listing,
    summarize no_faults (Some ledger3_table) "2024-01-01" "2024-12-31" None =
      (Ok summary, Some ledger3_table) /\
    list_expenses no_faults (Some ledger3_table) "2024-01-01" "2024-12-31" =
      (Ok listing, Some ledger3_table) /\
    fold_right Z.add 0 (map count_of summary) =
      Z.of_nat (List.length listing) /\
    forall m, In m summary -> 1 <= count_of m.
Proof.
  exact (summary_counts_add_up no_faults ledger3_table
           "2024-01-01" "2024-12-31" eq_refl eq_refl).
Defined.

